(** * The Estimator orchestration layer and the pandas adapter

    A shallow embedding of
      tensorflow/contrib/learn/python/learn/estimators/estimator.py
      tensorflow/contrib/learn/python/learn/learn_io/pandas_io.py

    Python objects are modelled by the data the two files look at: [None] is
    [option], a dict is a [gmap], an exception is a value of [exn] returned
    on the left of a sum.  Methods that read or write the attributes of
    [self], the checkpoint directory or the graph registry run in a small
    state-and-exception monad whose state survives a raise, as in Python.
    The libraries the files import but do not define (the graph engine, the
    tensor signature module, the data feeder, the metrics library) are the
    fields of the class [Framework]. *)

From Stdlib Require Import ZArith Lia.
From stdpp Require Import base option list strings gmap.

(** ** Exceptions *)

Inductive exn :=
| ValueError (msg : string)
| NotFittedError (msg : string)
| TypeError (msg : string)
| IndexError (msg : string)
| KeyError (key : string)
| AttributeError (msg : string)
| OutOfRangeError
| OtherError (msg : string).

(** A computation that may raise. *)
Definition Res (A : Type) : Type := exn + A.

Definition res_bind {A B} (m : Res A) (k : A → Res B) : Res B :=
  match m with
  | inl e => inl e
  | inr a => k a
  end.

(** ** Modes *)

Inductive ModeKeys := TRAIN | EVAL | INFER.

Definition mode_value (m : ModeKeys) : string :=
  match m with
  | TRAIN => "train"
  | EVAL => "eval"
  | INFER => "infer"
  end.

(** ** Tensor shapes *)

(** Modelled from the spec: the shape descriptor of the imported
    [tensor_shape] module, which is not part of these two files.  A shape is
    of unknown rank ([None]) or a list of dimensions, each known or unknown;
    [num_elements] is the product of the dimensions when all are known, and
    two shapes are compatible unless both ranks are known and differ or two
    known dimensions differ. *)
Definition Dimension : Type := option Z.
Definition TensorShape : Type := option (list Dimension).

Definition scalar : TensorShape := Some [].

Definition num_elements (s : TensorShape) : option Z :=
  match s with
  | None => None
  | Some dims =>
      foldr (λ d acc, match d, acc with
                      | Some n, Some m => Some (n * m)%Z
                      | _, _ => None
                      end) (Some 1%Z) dims
  end.

Definition dimension_compatible (a b : Dimension) : bool :=
  match a, b with
  | Some x, Some y => bool_decide (x = y)
  | _, _ => true
  end.

Fixpoint dims_compatible (xs ys : list Dimension) : bool :=
  match xs, ys with
  | [], [] => true
  | x :: xs', y :: ys' => dimension_compatible x y && dims_compatible xs' ys'
  | _, _ => false
  end.

Definition is_compatible_with (s other : TensorShape) : bool :=
  match s, other with
  | Some xs, Some ys => dims_compatible xs ys
  | _, _ => true
  end.

(** ** Graph elements *)

Inductive Tensor :=
| GraphTensor (name : string) (dtype : string) (shape : TensorShape)
| Reshape (t : Tensor) (shape : list Z).

Definition get_shape (t : Tensor) : TensorShape :=
  match t with
  | GraphTensor _ _ s => s
  | Reshape _ dims => Some (Some <$> dims)
  end.

(** [array_ops.reshape]. *)
Definition reshape (t : Tensor) (dims : list Z) : Tensor := Reshape t dims.

Inductive Operation :=
| GraphOp (name : string)
| OpOf (t : Tensor)
| Group (inputs : list Tensor).

(** A single value or a dict of named values: features, targets,
    predictions and signatures all come in both forms. *)
Inductive OneOrDict (A : Type) :=
| One (v : A)
| Dict (d : gmap string A).
Arguments One {A} v.
Arguments Dict {A} d.

Definition is_dict {A} (x : option (OneOrDict A)) : bool :=
  match x with
  | Some (Dict _) => true
  | _ => false
  end.

Record TensorSignature := {
  sig_dtype : string;
  sig_shape : TensorShape;
  sig_is_sparse : bool
}.

Abbreviation Tensors := (OneOrDict Tensor).
Abbreviation Signatures := (OneOrDict TensorSignature).

(** What a model function may hand back for one of its three outputs. *)
Inductive Value :=
| VTensor (t : Tensor)
| VOperation (op : Operation)
| VOther (repr : string).

(** Arrays of numbers: the first axis is the list, a row is one example. *)
Definition Row : Type := list Z.
Definition ndarray : Type := list Row.

(** Raw [x] / [y] arguments of fit, evaluate and predict. *)
Inductive Data :=
| ArrayData (a : ndarray)
| TensorData (t : Tensor).

(** ** Input and feed functions *)

(** What a call of an input function returns: a (features, targets) pair,
    or a bare tensor. *)
Inductive InputResult :=
| InputPair (features targets : option Tensors)
| InputTensor (features : Tensor).

(** An input function takes no argument; it is modelled by what its call
    produces. *)
Definition InputFn : Type := Res InputResult.

Definition Feed : Type := gmap string ndarray.

(** What the [n]-th call of a feed function does: it returns a feed dict,
    raises StopIteration, or raises something else. *)
Inductive FeedResult :=
| FeedDict (d : Feed)
| FeedStopIteration
| FeedRaises (e : exn).

Definition FeedFn : Type := nat → FeedResult.

Record DataFeeder := {
  input_builder : InputFn;
  get_feed_dict_fn : FeedFn
}.

(** ** Metrics *)

(** The result of a metric: a tensor, or a list or tuple of tensors. *)
Inductive MetricOps :=
| MetricTensor (t : Tensor)
| MetricSeq (items : list Tensor).

(** A key of the metrics dict: a string, or a tuple of strings. *)
Inductive MetricName :=
| NameStr (s : string)
| NameTuple (parts : list string).

Global Instance MetricName_eq_dec : EqDecision MetricName.
Proof. solve_decision. Defined.

Global Instance MetricName_countable : Countable MetricName.
Proof.
  refine (inj_countable'
    (λ n, match n with NameStr s => inl s | NameTuple p => inr p end)
    (λ x, match x with inl s => NameStr s | inr p => NameTuple p end) _).
  by intros [].
Defined.

Inductive Metric :=
| MetricSpec
    (create_metric_ops :
       option Tensors → option Tensors → option Tensors → Res MetricOps)
| MetricFn (fn : option Tensors → option Tensors → Res MetricOps).

(** The [metrics] argument of evaluate when it is not [None]: a dict, given
    by its items in iteration order, or some other object. *)
Inductive MetricsArg :=
| MetricsDict (items : list (MetricName * Metric))
| MetricsOther (repr : string).

(** ** Monitors and hooks *)

Record Monitor := {
  monitor_name : string;
  is_session_run_hook : bool;
  run_on_all_workers : bool
}.

Inductive Hook :=
| SessionRunHook (m : Monitor)
| RunHookAdapterForMonitors (ms : list Monitor).

(** ** The imported libraries *)

Record TrainRequest := {
  train_output_dir : string;
  train_train_op : option Operation;
  train_loss_op : option Tensor;
  train_feed_fn : option FeedFn;
  train_steps : option Z;
  train_max_steps : option Z;
  train_hooks : list Hook;
  train_supervisor_is_chief : bool
}.

Record EvalRequest := {
  eval_output_dir : string;
  eval_checkpoint_path : string;
  eval_eval_dict : gmap MetricName MetricOps;
  eval_update_op : option Operation;
  eval_feed_fn : option FeedFn;
  eval_max_steps : option Z
}.

Class Framework := {
  (* contrib_framework *)
  is_tensor : Data → bool;
  convert_to_tensor : Value → Res Tensor;
  convert_to_tensor_or_sparse_tensor : Value → Res Tensor;
  (* data_feeder *)
  setup_train_data_feeder :
    Data → option Data → option Z → bool → option Z → Res DataFeeder;
  (* tensor_signature *)
  create_signatures : option Tensors → option Signatures;
  tensors_compatible : option Tensors → Signatures → bool;
  create_placeholders_from_signatures : option Signatures → option Tensors;
  (* metrics_lib *)
  streaming_mean : option Tensor → MetricOps;
  (* graph_actions *)
  _monitored_train :
    TrainRequest → gmap string string → Res Z * gmap string string;
  graph_actions_evaluate :
    EvalRequest → Res (option (gmap MetricName Z) * Z);
  graph_actions_infer :
    string → gmap string (option Tensor) → Res (gmap string ndarray);
  graph_actions_run_feeds :
    gmap string (option Tensor) → FeedFn → string →
    Res (list (gmap string ndarray));
  (* one step of the session restored from a checkpoint: the outputs for
     the [n]-th feed, or the error the engine raises *)
  session_run :
    string → gmap string (option Tensor) → option Feed → nat →
    Res (gmap string ndarray)
}.

Section InputAdapter.
Context `{Framework}.

Definition _get_input_fn (x y : option Data) (input_fn : option InputFn)
    (feed_fn : option FeedFn) (batch_size : option Z)
    (shuffle : bool) (epochs : option Z) : Res (InputFn * option FeedFn) :=
  match input_fn with
  | None =>
      match x with
      | None => inl (ValueError "Either x or input_fn must be provided.")
      | Some xv =>
          if is_tensor xv
             || match y with Some yv => is_tensor yv | None => false end
          then inl (ValueError
                      "Inputs cannot be tensors. Please provide input_fn.")
          else if bool_decide (is_Some feed_fn)
          then inl (ValueError "Can not provide both feed_fn and x or y.")
          else
            res_bind (setup_train_data_feeder xv y batch_size shuffle epochs)
              (λ df, inr (input_builder df, Some (get_feed_dict_fn df)))
      end
  | Some fn =>
      if bool_decide (is_Some x) || bool_decide (is_Some y)
      then inl (ValueError "Can not provide both input_fn and x or y.")
      else if bool_decide (is_Some batch_size)
      then inl (ValueError "Can not provide both input_fn and batch_size.")
      else inr (fn, feed_fn)
  end.
End InputAdapter.

(** ** Configuration, state and the method monad *)

Record RunConfig := {
  (* [None]: the configuration object has no such attribute *)
  execution_mode : option string;
  tf_random_seed : option Z;
  task : Z;
  is_chief : bool;
  training_worker_max_startup_secs : Z;
  training_worker_session_startup_stagger_secs : Z
}.

Inductive Event :=
| NewGraph
| LatestCheckpoint (dir : string)
| Sleep (secs : Z).

Global Instance Event_eq_dec : EqDecision Event.
Proof. solve_decision. Defined.

(** The mutable attributes of one estimator object, the checkpoint store
    (directory to latest checkpoint path) and the trace of what was done to
    the outside world, newest event first. *)
Record State := {
  _features_info : option Signatures;
  _targets_info : option Signatures;
  _graph : option nat;
  checkpoints : gmap string string;
  events : list Event
}.

Definition M (A : Type) : Type := State → Res A * State.

Definition ret {A} (a : A) : M A := λ s, (inr a, s).
Definition raise {A} (e : exn) : M A := λ s, (inl e, s).
Definition lift {A} (r : Res A) : M A := λ s, (r, s).
Definition bind {A B} (m : M A) (k : A → M B) : M B :=
  λ s, match m s with
       | (inl e, s') => (inl e, s')
       | (inr a, s') => k a s'
       end.
Definition get : M State := λ s, (inr s, s).
Definition put (s : State) : M unit := λ _, (inr tt, s).

Notation "x <- m ;; k" := (bind m (λ x, k))
  (at level 100, m at next level, right associativity).
Notation "m ;; k" := (bind m (λ _, k))
  (at level 100, right associativity).

Definition log_event (e : Event) : M unit :=
  s <- get ;;
  put {| _features_info := _features_info s; _targets_info := _targets_info s;
         _graph := _graph s; checkpoints := checkpoints s;
         events := e :: events s |}.

Definition set_features_info (i : option Signatures) : M unit :=
  s <- get ;;
  put {| _features_info := i; _targets_info := _targets_info s;
         _graph := _graph s; checkpoints := checkpoints s;
         events := events s |}.

Definition set_targets_info (i : option Signatures) : M unit :=
  s <- get ;;
  put {| _features_info := _features_info s; _targets_info := i;
         _graph := _graph s; checkpoints := checkpoints s;
         events := events s |}.

Definition set_graph (g : option nat) : M unit :=
  s <- get ;;
  put {| _features_info := _features_info s; _targets_info := _targets_info s;
         _graph := g; checkpoints := checkpoints s;
         events := events s |}.

Definition set_checkpoints (c : gmap string string) : M unit :=
  s <- get ;;
  put {| _features_info := _features_info s; _targets_info := _targets_info s;
         _graph := _graph s; checkpoints := c;
         events := events s |}.

Definition graphs_built (s : State) : nat :=
  length (filter (λ e, e = NewGraph) (events s)).

(** [saver.latest_checkpoint]: reads the checkpoint store. *)
Definition latest_checkpoint (dir : string) : M (option string) :=
  log_event (LatestCheckpoint dir) ;;
  s <- get ;;
  ret (checkpoints s !! dir).

(** [ops.Graph()]: registers a fresh graph and returns its index. *)
Definition new_graph : M nat :=
  s <- get ;;
  log_event NewGraph ;;
  ret (graphs_built s).

(** Python truth of an optional string: [None] and the empty string are
    false. *)
Definition truthy_path (p : option string) : bool :=
  match p with
  | None => false
  | Some s => negb (bool_decide (s = ""))
  end.

(** ** BaseEstimator *)

(** The constructor arguments an estimator keeps, and the three methods a
    concrete estimator provides. *)
Record BaseEstimator := {
  _model_dir : string;
  _config : RunConfig;
  _get_train_ops :
    option Tensors → option Tensors → M (option Operation * option Tensor);
  _get_eval_ops :
    option Tensors → option Tensors → option (list (MetricName * Metric)) →
    M (gmap MetricName MetricOps);
  _get_predict_ops : option Tensors → M (option Tensors)
}.

(** A lazy prediction sequence: the arguments its generator captured. *)
Record PredictGenerator := {
  gen_checkpoint_path : string;
  gen_predictions : gmap string (option Tensor);
  gen_feed_fn : option FeedFn;
  gen_return_dict : bool
}.

Inductive PredictResult :=
| PredictArray (a : ndarray)
| PredictArrays (d : gmap string ndarray)
| PredictIterable (g : PredictGenerator).

Fixpoint res_mapM {A B} (f : A → Res B) (l : list A) : Res (list B) :=
  match l with
  | [] => inr []
  | a :: l' =>
      res_bind (f a) (λ b, res_bind (res_mapM f l') (λ bs, inr (b :: bs)))
  end.

Section BaseEstimator.
Context `{Framework}.
Variable self : BaseEstimator.

Definition _check_inputs (features targets : option Tensors) : M unit :=
  s <- get ;;
  match _features_info s with
  | Some info =>
      if tensors_compatible features info then ret tt
      else raise (ValueError
        "Features are incompatible with given information. Given features: %s, required signatures: %s.")
  | None => set_features_info (create_signatures features)
  end ;;
  match targets with
  | Some _ =>
      s' <- get ;;
      match _targets_info s' with
      | Some info =>
          if tensors_compatible targets info then ret tt
          else raise (ValueError
            "Targets are incompatible with given information. Given targets: %s, required signatures: %s.")
      | None => set_targets_info (create_signatures targets)
      end
  | None => ret tt
  end.

(** [features, targets = input_fn()]. *)
Definition unpack_input (input_fn : InputFn)
    : Res (option Tensors * option Tensors) :=
  res_bind input_fn (λ r,
    match r with
    | InputPair f t => inr (f, t)
    | InputTensor _ => inl (TypeError "'Tensor' object is not iterable.")
    end).

(** The arguments that only travel on to the training loop (init_op,
    init_feed_fn, init_fn, device_fn, log_every_steps, fail_on_nan_loss) and
    the random seed and global step of the graph are left to the engine. *)
Definition _train_model (input_fn : InputFn) (steps : option Z)
    (feed_fn : option FeedFn) (monitors : option (list Monitor))
    (max_steps : option Z) : M (option Z) :=
  let cfg := _config self in
  let train :=
    g <- new_graph ;;
    set_graph (Some g) ;;
    ft <- lift (unpack_input input_fn) ;;
    _check_inputs ft.1 ft.2 ;;
    ops <- _get_train_ops self ft.1 ft.2 ;;
    let monitors := default [] monitors in
    let hooks := SessionRunHook <$> filter (λ m, is_session_run_hook m = true) monitors in
    let deprecated_monitors :=
      filter (λ m, is_session_run_hook m = false) monitors in
    let supervisor_is_chief := is_chief cfg in
    let deprecated_monitors :=
      if supervisor_is_chief then deprecated_monitors
      else filter (λ m, run_on_all_workers m = true) deprecated_monitors in
    let hooks :=
      match deprecated_monitors with
      | [] => hooks
      | _ => hooks ++ [RunHookAdapterForMonitors deprecated_monitors]
      end in
    s <- get ;;
    let r := _monitored_train
               {| train_output_dir := _model_dir self;
                  train_train_op := ops.1;
                  train_loss_op := ops.2;
                  train_feed_fn := feed_fn;
                  train_steps := steps;
                  train_max_steps := max_steps;
                  train_hooks := hooks;
                  train_supervisor_is_chief := supervisor_is_chief |}
               (checkpoints s) in
    set_checkpoints r.2 ;;
    loss <- lift r.1 ;;
    ret (Some loss) in
  match execution_mode cfg with
  | Some mode =>
      if bool_decide (mode ∈ ["all"; "train"]) then
        let sleep_secs :=
          Z.min (training_worker_max_startup_secs cfg)
                (task cfg * training_worker_session_startup_stagger_secs cfg) in
        (if bool_decide (sleep_secs = 0%Z) then ret tt
         else log_event (Sleep sleep_secs)) ;;
        train
      else ret None
  | None => train
  end.

Definition fit (x y : option Data) (input_fn : option InputFn)
    (steps batch_size : option Z) (monitors : option (list Monitor))
    (max_steps : option Z) : M unit :=
  if bool_decide (is_Some steps) && bool_decide (is_Some max_steps)
  then raise (ValueError "Can not provide both steps and max_steps.")
  else
    fns <- lift (_get_input_fn x y input_fn None batch_size true None) ;;
    _train_model fns.1 steps fns.2 monitors max_steps ;;
    ret tt.

Definition partial_fit (x y : option Data) (input_fn : option InputFn)
    (steps batch_size : option Z) (monitors : option (list Monitor))
    : M unit :=
  fit x y input_fn steps batch_size monitors None.

Definition _extract_metric_update_ops (eval_dict : gmap MetricName MetricOps)
    : option Operation * gmap MetricName MetricOps :=
  let update_ops :=
    mjoin ((λ kv : MetricName * MetricOps,
               match kv.2 with
               | MetricSeq [_; u] => [u]
               | _ => []
               end) <$> map_to_list eval_dict) in
  let value_ops :=
    (λ ops, match ops with
            | MetricSeq [v; _] => MetricTensor v
            | _ => ops
            end) <$> eval_dict in
  (match update_ops with
   | [] => None
   | _ => Some (Group update_ops)
   end, value_ops).

Definition _evaluate_model (input_fn : InputFn) (steps : option Z)
    (feed_fn : option FeedFn) (metrics : option (list (MetricName * Metric)))
    (name : option string) : M (option (gmap MetricName Z) * option Z) :=
  let cfg := _config self in
  if match execution_mode cfg with
     | Some mode => negb (bool_decide (mode ∈ ["all"; "evaluate"; "eval_evalset"]))
     | None => false
     end
  then ret (None, None)
  else
    let checkpoint_path := _model_dir self in
    latest_path <- latest_checkpoint checkpoint_path ;;
    if negb (truthy_path latest_path)
    then raise (NotFittedError "Couldn't find trained model at %s.")
    else
      let eval_dir :=
        match name with
        | None | Some "" => _model_dir self +:+ "/eval"
        | Some n => _model_dir self +:+ "/eval_" +:+ n
        end in
      new_graph ;;
      ft <- lift (unpack_input input_fn) ;;
      _check_inputs ft.1 ft.2 ;;
      eval_dict <- _get_eval_ops self ft.1 ft.2 metrics ;;
      let uv := _extract_metric_update_ops eval_dict in
      r <- lift (graph_actions_evaluate
                   {| eval_output_dir := eval_dir;
                      eval_checkpoint_path := checkpoint_path;
                      eval_eval_dict := uv.2;
                      eval_update_op := uv.1;
                      eval_feed_fn := feed_fn;
                      eval_max_steps := steps |}) ;;
      ret (r.1, Some r.2).

Definition evaluate (x y : option Data) (input_fn : option InputFn)
    (feed_fn : option FeedFn) (batch_size steps : option Z)
    (metrics : option MetricsArg) (name : option string)
    : M (option (gmap MetricName Z)) :=
  fns <- lift (_get_input_fn x y input_fn feed_fn batch_size false (Some 1%Z)) ;;
  metrics <- match metrics with
             | None => ret None
             | Some (MetricsDict items) => ret (Some items)
             | Some (MetricsOther _) =>
                 raise (ValueError "Metrics argument should be None or dict. Got %s.")
             end ;;
  r <- _evaluate_model fns.1 steps fns.2 metrics name ;;
  ret match r.1, r.2 with
      | Some eval_results, Some global_step =>
          Some (<[NameStr "global_step" := global_step]> eval_results)
      | other, _ => other
      end.
End BaseEstimator.

(** ** Prediction *)

(** One item of a lazy prediction sequence. *)
Inductive Prediction :=
| PredictionRow (r : Row)
| PredictionDict (d : gmap string Row).

(** One call of [next] on an iterator. *)
Inductive IterStep (A : Type) :=
| Yield (a : A)
| StopIteration
| Raise (e : exn).
Arguments Yield {A} a.
Arguments StopIteration {A}.
Arguments Raise {A} e.

(** How a generator that was run for a while stands: it returned
    (StopIteration reaches the consumer, the sequence is over), an exception
    left it, or it is suspended with more to give. *)
Inductive GeneratorEnd :=
| Returned
| Raised (e : exn)
| Suspended.

Section Prediction.
Context `{Framework}.
Variable self : BaseEstimator.

Definition _get_features_from_input_fn (input_fn : InputFn)
    : Res (option Tensors) :=
  res_bind input_fn (λ result,
    match result with
    | InputPair features _ => inr features
    | InputTensor t => inr (Some (One t))
    end).

(** [np.concatenate([output[key] for output in outputs], axis=0)]. *)
Definition concatenate_key (outputs : list (gmap string ndarray))
    (key : string) : Res (string * ndarray) :=
  res_bind
    (res_mapM (λ output : gmap string ndarray,
                 match output !! key with
                 | Some a => inr a
                 | None => inl (KeyError key)
                 end) outputs)
    (λ arrays,
       match arrays with
       | [] => inl (ValueError "need at least one array to concatenate")
       | _ => inr (key, mjoin arrays)
       end).

Definition _infer_model_single (checkpoint_path : string)
    (predictions : gmap string (option Tensor)) (feed_fn : option FeedFn)
    (return_dict : bool) : Res PredictResult :=
  res_bind
    match feed_fn with
    | None => graph_actions_infer checkpoint_path predictions
    | Some f =>
        res_bind (graph_actions_run_feeds predictions f checkpoint_path)
          (λ outputs,
             res_bind
               (res_mapM (concatenate_key outputs)
                         (map_to_list predictions).*1)
               (λ kvs, inr (list_to_map kvs)))
    end
    (λ preds : gmap string ndarray,
       if return_dict then inr (PredictArrays preds)
       else match preds !! "predictions" with
            | Some a => inr (PredictArray a)
            | None => inl (KeyError "predictions")
            end).

(** The feed sequence handed to the engine: [itertools.repeat(None)] when
    there is no feed function, otherwise a generator that yields
    [feed_fn()] for ever and ends when that call raises StopIteration. *)
Definition feed_dicts (feed_fn : option FeedFn) (n : nat)
    : IterStep (option Feed) :=
  match feed_fn with
  | None => Yield None
  | Some f =>
      match f n with
      | FeedDict d => Yield (Some d)
      | FeedStopIteration => StopIteration
      | FeedRaises e => Raise e
      end
  end.

(** Modelled from the spec: [graph_actions.run_feeds_iter], the engine's
    streaming inference, which is not part of these two files.  It walks
    the feed sequence and yields the session's outputs for each feed; it
    ends when the feed sequence ends, and whatever the feed sequence or
    the session raises leaves it. *)
Definition run_feeds_iter (output_dict : gmap string (option Tensor))
    (feeds : nat → IterStep (option Feed)) (restore_checkpoint_path : string)
    (n : nat) : IterStep (gmap string ndarray) :=
  match feeds n with
  | StopIteration => StopIteration
  | Raise e => Raise e
  | Yield f =>
      match session_run restore_checkpoint_path output_dict f n with
      | inl e => Raise e
      | inr output_batch => Yield output_batch
      end
  end.

(** [{key: value[i] for key, value in output_batch.items()}]. *)
Definition batch_row (output_batch : gmap string ndarray) (i : nat)
    : Res Prediction :=
  if bool_decide (map_Forall (λ _ (value : ndarray), i < length value) output_batch)
  then inr (PredictionDict (omap (λ value : ndarray, value !! i) output_batch))
  else inl (IndexError "index out of bounds").

(** The items one batch gives, and the exception that interrupts the
    unpacking, if any. *)
Fixpoint unpack_rows (output_batch : gmap string ndarray) (indices : list nat)
    : list Prediction * option exn :=
  match indices with
  | [] => ([], None)
  | i :: rest =>
      match batch_row output_batch i with
      | inl e => ([], Some e)
      | inr p =>
          let r := unpack_rows output_batch rest in (p :: r.1, r.2)
      end
  end.

Definition unpack_batch (return_dict : bool)
    (output_batch : gmap string ndarray) : list Prediction * option exn :=
  if return_dict then
    match (map_to_list output_batch).*2 with
    | [] => ([], Some (IndexError "list index out of range"))
    | value :: _ => unpack_rows output_batch (seq 0 (length value))
    end
  else
    match output_batch !! "predictions" with
    | None => ([], Some (KeyError "predictions"))
    | Some a => (PredictionRow <$> a, None)
    end.

(** The body of the generator, run from its [n]-th batch for at most
    [fuel] batches: the predictions it yields and how it stands then. *)
Fixpoint _infer_model_as_iterable (fuel : nat) (checkpoint_path : string)
    (predictions : gmap string (option Tensor)) (feed_fn : option FeedFn)
    (return_dict : bool) (n : nat) : list Prediction * GeneratorEnd :=
  match fuel with
  | O => ([], Suspended)
  | S fuel' =>
      match run_feeds_iter predictions (feed_dicts feed_fn) checkpoint_path n with
      | StopIteration => ([], Returned)
      | Raise OutOfRangeError => ([], Returned)
      | Raise e => ([], Raised e)
      | Yield output_batch =>
          match unpack_batch return_dict output_batch with
          | (items, Some OutOfRangeError) => (items, Returned)
          | (items, Some e) => (items, Raised e)
          | (items, None) =>
              let r := _infer_model_as_iterable fuel' checkpoint_path
                         predictions feed_fn return_dict (S n) in
              (items ++ r.1, r.2)
          end
      end
  end.

(** Consuming a lazy prediction sequence from its start. *)
Definition consume (fuel : nat) (g : PredictGenerator)
    : list Prediction * GeneratorEnd :=
  _infer_model_as_iterable fuel (gen_checkpoint_path g) (gen_predictions g)
    (gen_feed_fn g) (gen_return_dict g) 0.

Definition _infer_model (input_fn : InputFn) (feed_fn : option FeedFn)
    (outputs : option (list string)) (as_iterable : bool) : M PredictResult :=
  checkpoint_path <- latest_checkpoint (_model_dir self) ;;
  match checkpoint_path with
  | Some path =>
      if bool_decide (path = "")
      then raise (NotFittedError "Couldn't find trained model at %s.")
      else
        new_graph ;;
        features <- lift (_get_features_from_input_fn input_fn) ;;
        predictions <- _get_predict_ops self features ;;
        let return_dict := is_dict predictions in
        let predictions : gmap string (option Tensor) :=
          match predictions with
          | Some (Dict d) => Some <$> d
          | Some (One t) => {[ "predictions" := Some t ]}
          | None => {[ "predictions" := None ]}
          end in
        predictions <-
          match outputs with
          | None | Some [] => ret predictions
          | Some outs =>
              let kept := filter (λ kv : string * option Tensor, kv.1 ∈ outs)
                                 predictions in
              if bool_decide (size kept = 0)
              then raise (ValueError
                "Expected to run at least one output from %s, provided %s.")
              else ret kept
          end ;;
        if as_iterable then
          ret (PredictIterable
                 {| gen_checkpoint_path := path;
                    gen_predictions := predictions;
                    gen_feed_fn := feed_fn;
                    gen_return_dict := return_dict |})
        else lift (_infer_model_single path predictions feed_fn return_dict)
  | None => raise (NotFittedError "Couldn't find trained model at %s.")
  end.

Definition predict (x : option Data) (input_fn : option InputFn)
    (batch_size : option Z) (outputs : option (list string))
    (as_iterable : bool) : M PredictResult :=
  fns <- lift (_get_input_fn x None input_fn None batch_size false (Some 1%Z)) ;;
  _infer_model fns.1 fns.2 outputs as_iterable.
End Prediction.

(** ** Estimator *)

(** What introspection sees of a callable: a regular function has a code
    object and declared argument names; a callable object has a [__call__];
    a partial has a [func]; anything else has none of the three. *)
Inductive PyCallable :=
| PyFunction (args : list string)
| PyCallableObject (call : PyCallable)
| PyPartial (func : PyCallable)
| PyOpaque.

Fixpoint _get_arguments (func : PyCallable) : option (list string) :=
  match func with
  | PyFunction args => Some args
  | PyCallableObject call => _get_arguments call
  | PyPartial f => _get_arguments f
  | PyOpaque => None
  end.

Definition Params : Type := gmap string Z.

(** One call of the model function: the two positional arguments and the
    keyword arguments [mode] and [params], each present or not. *)
Record ModelFnCall := {
  call_features : option Tensors;
  call_targets : option Tensors;
  call_mode : option ModeKeys;
  call_params : option (option Params)
}.

Record ModelFn := {
  model_fn_callable : PyCallable;
  model_fn_run :
    ModelFnCall → Res (option (OneOrDict Value) * option Value * option Value)
}.

Definition FeatureEngineeringFn : Type :=
  option Tensors → option Tensors → Res (option Tensors * option Tensors).

Definition _identity_feature_engineering_fn : FeatureEngineeringFn :=
  λ features targets, inr (features, targets).

Definition model_fn_arguments (model_fn : option ModelFn)
    : option (list string) :=
  match model_fn with
  | Some f => _get_arguments (model_fn_callable f)
  | None => None
  end.

(** [name in args], which raises when [args] is [None]. *)
Definition arg_in (name : string) (args : option (list string)) : Res bool :=
  match args with
  | Some l => inr (bool_decide (name ∈ l))
  | None => inl (TypeError "argument of type 'NoneType' is not iterable")
  end.

Definition _maybe_add_streaming_mean `{Framework}
    (result : gmap MetricName MetricOps) (key : string)
    (value : option Tensor) : gmap MetricName MetricOps :=
  if bool_decide (is_Some (result !! NameStr key)) then result
  else <[NameStr key := streaming_mean value]> result.

Section Estimator.
Context `{Framework}.
Variable _model_fn : option ModelFn.
Variable params : option Params.
Variable _feature_engineering_fn : FeatureEngineeringFn.

(** The call the dispatch makes, by the declared argument names. *)
Definition model_fn_call (features targets : option Tensors) (mode : ModeKeys)
    : Res ModelFnCall :=
  let model_fn_args := model_fn_arguments _model_fn in
  res_bind (arg_in "mode" model_fn_args) (λ has_mode,
    if has_mode then
      res_bind (arg_in "params" model_fn_args) (λ has_params,
        if has_params then
          inr {| call_features := features; call_targets := targets;
                 call_mode := Some mode; call_params := Some params |}
        else
          inr {| call_features := features; call_targets := targets;
                 call_mode := Some mode; call_params := None |})
    else
      inr {| call_features := features; call_targets := targets;
             call_mode := None; call_params := None |}).

Definition validate_train_op (mode : ModeKeys) (train_op : option Value)
    : Res (option Operation) :=
  match train_op with
  | None =>
      match mode with
      | TRAIN => inl (ValueError "Missing train_op.")
      | _ => inr None
      end
  | Some (VOperation op) => inr (Some op)
  | Some v => res_bind (convert_to_tensor v) (λ t, inr (Some (OpOf t)))
  end.

Definition validate_loss (mode : ModeKeys) (loss : option Value)
    : Res (option Tensor) :=
  match loss with
  | None =>
      match mode with
      | TRAIN | EVAL => inl (ValueError "Missing loss.")
      | INFER => inr None
      end
  | Some v =>
      res_bind (convert_to_tensor v) (λ loss,
        let loss_shape := get_shape loss in
        if match num_elements loss_shape with
           | None => false
           | Some n => negb (bool_decide (n = 1%Z))
           end
        then inl (ValueError "Loss must be scalar: %s.")
        else if negb (is_compatible_with loss_shape scalar)
        then inr (Some (reshape loss []))
        else inr (Some loss))
  end.

Definition validate_predictions (mode : ModeKeys)
    (predictions : option (OneOrDict Value)) : Res (option Tensors) :=
  match predictions with
  | None =>
      match mode with
      | INFER => inl (ValueError "Missing predictions.")
      | _ => inr None
      end
  | Some (Dict d) =>
      res_bind
        (res_mapM (λ kv : string * Value,
                     res_bind (convert_to_tensor_or_sparse_tensor kv.2)
                              (λ t, inr (kv.1, t)))
                  (map_to_list d))
        (λ kvs, inr (Some (Dict (list_to_map kvs))))
  | Some (One v) =>
      res_bind (convert_to_tensor_or_sparse_tensor v)
               (λ t, inr (Some (One t)))
  end.

(** The checks on the three values the model function returned. *)
Definition validate_outputs (mode : ModeKeys)
    (out : option (OneOrDict Value) * option Value * option Value)
    : Res (option Tensors * option Tensor * option Operation) :=
  let predictions := out.1.1 in
  let loss := out.1.2 in
  let train_op := out.2 in
  res_bind (validate_train_op mode train_op) (λ train_op,
  res_bind (validate_loss mode loss) (λ loss,
  res_bind (validate_predictions mode predictions) (λ predictions,
  inr (predictions, loss, train_op)))).

Definition _call_model_fn (features targets : option Tensors)
    (mode : ModeKeys)
    : Res (option Tensors * option Tensor * option Operation) :=
  res_bind (_feature_engineering_fn features targets) (λ ft,
  res_bind (model_fn_call ft.1 ft.2 mode) (λ call,
  res_bind match _model_fn with
           | Some f => model_fn_run f call
           | None => inl (TypeError "'NoneType' object is not callable")
           end (validate_outputs mode))).

(** The model function was invoked for this call of [_call_model_fn] and
    returned the triple [out]. *)
Definition model_fn_returns (features targets : option Tensors)
    (mode : ModeKeys)
    (out : option (OneOrDict Value) * option Value * option Value) : Prop :=
  ∃ ft call f,
    _feature_engineering_fn features targets = inr ft ∧
    model_fn_call ft.1 ft.2 mode = inr call ∧
    _model_fn = Some f ∧
    model_fn_run f call = inr out.

Definition Estimator_get_train_ops (features targets : option Tensors)
    : M (option Operation * option Tensor) :=
  r <- lift (_call_model_fn features targets TRAIN) ;;
  ret (r.2, r.1.2).

Definition _make_metrics_ops (metrics : option (list (MetricName * Metric)))
    (features targets predictions : option Tensors)
    : Res (gmap MetricName MetricOps) :=
  let metrics := default [] metrics in
  let targets :=
    match targets with
    | Some (Dict d) =>
        match map_to_list d with
        | [(_, t)] => Some (One t)
        | _ => targets
        end
    | _ => targets
    end in
  foldl (λ (acc : Res (gmap MetricName MetricOps)) nm,
    res_bind acc (λ result,
      let name : MetricName := nm.1 in
      match nm.2 with
      | MetricSpec create_metric_ops =>
          res_bind (create_metric_ops features targets predictions)
                   (λ ops, inr (<[name := ops]> result))
      | MetricFn metric =>
          match name with
          | NameTuple parts =>
              match parts, predictions with
              | [name0; name1], Some (Dict preds) =>
                  match preds !! name1 with
                  | None => inl (KeyError name1)
                  | Some p =>
                      res_bind
                        match targets with
                        | Some (Dict ts) =>
                            match ts !! name1 with
                            | Some t => metric (Some (One p)) (Some (One t))
                            | None => metric (Some (One p)) targets
                            end
                        | _ => metric (Some (One p)) targets
                        end
                        (λ ops, inr (<[NameStr name0 := ops]> result))
                  end
              | [_; _], _ =>
                  inl (ValueError
                    "Metrics passed provide (name, prediction), but predictions are not dict. Metrics: %s, Predictions: %s.")
              | _, _ =>
                  inl (ValueError
                    "Invalid metric for {}. It returned a tuple with len {}, expected 2.")
              end
          | NameStr _ =>
              if is_dict predictions
              then inl (ValueError
                "Metrics passed provide only name, no prediction, but predictions are dict. Metrics: %s, Targets: %s.")
              else res_bind (metric predictions targets)
                            (λ ops, inr (<[name := ops]> result))
          end
      end))
    (inr ∅) metrics.

Definition Estimator_get_eval_ops (features targets : option Tensors)
    (metrics : option (list (MetricName * Metric)))
    : M (gmap MetricName MetricOps) :=
  r <- lift (_call_model_fn features targets EVAL) ;;
  let predictions := r.1.1 in
  let loss := r.1.2 in
  result <- lift (_make_metrics_ops metrics features targets predictions) ;;
  let result := _maybe_add_streaming_mean result "loss" loss in
  ret match predictions with
      | None => result
      | Some (Dict d) =>
          foldl (λ result (kv : string * Tensor),
                   _maybe_add_streaming_mean result kv.1 (Some kv.2))
                result (map_to_list d)
      | Some (One p) =>
          _maybe_add_streaming_mean result "predictions" (Some p)
      end.

Definition Estimator_get_predict_ops (features : option Tensors)
    : M (option Tensors) :=
  s <- get ;;
  let targets := create_placeholders_from_signatures (_targets_info s) in
  r <- lift (_call_model_fn features targets INFER) ;;
  ret r.1.1.
End Estimator.

(** [Estimator.__init__], for a model directory and a configuration that are
    already resolved. *)
Definition Estimator `{Framework} (model_fn : option ModelFn)
    (model_dir : string) (config : RunConfig) (params : option Params)
    (feature_engineering_fn : option FeatureEngineeringFn)
    : Res BaseEstimator :=
  res_bind
    match model_fn with
    | Some f =>
        let model_fn_args := _get_arguments (model_fn_callable f) in
        if bool_decide (is_Some params)
        then res_bind (arg_in "params" model_fn_args) (λ has_params,
               if has_params then inr tt
               else inl (ValueError
                 "Estimator's model_fn (%s) has less than 4 arguments, but not None params (%s) are passed."))
        else res_bind (arg_in "params" model_fn_args) (λ _, inr tt)
    | None => inr tt
    end
    (λ _,
       let fe := default _identity_feature_engineering_fn feature_engineering_fn in
       inr {| _model_dir := model_dir;
              _config := config;
              _get_train_ops := Estimator_get_train_ops model_fn params fe;
              _get_eval_ops := Estimator_get_eval_ops model_fn params fe;
              _get_predict_ops := Estimator_get_predict_ops model_fn params fe |}).

(** ** pandas_io *)

Module pandas_io.

Definition PANDAS_DTYPES : gmap string string :=
  list_to_map
    [("int8", "int"); ("int16", "int"); ("int32", "int"); ("int64", "int");
     ("uint8", "int"); ("uint16", "int"); ("uint32", "int");
     ("uint64", "int");
     ("float16", "float"); ("float32", "float"); ("float64", "float");
     ("bool", "i")].

(** A column of a data frame: its label (a string, which [str] prints as
    it is), the name of its dtype, and its cells.  A frame is the list of
    its columns, in order; two columns may carry the same label. *)
Record Column := {
  column_label : string;
  dtype_name : string;
  column_cells : list string
}.

(** An array: the values of a frame, or an array cast to another dtype. *)
Inductive Array :=
| values (columns : list Column)
| astype (dtype : string) (a : Array).

(** The objects the extractors are given and give back. *)
Inductive PyObject :=
| DataFrame (columns : list Column)
| NdArray (a : Array)
| Other (repr : string).

Fixpoint join (sep : string) (parts : list string) : string :=
  match parts with
  | [] => ""
  | [p] => p
  | p :: rest => p +:+ sep +:+ join sep rest
  end.

(** [for column in data]: a frame iterates over its column labels, a
    repeated label as often as it occurs. *)
Definition labels_of (columns : list Column) : list string :=
  column_label <$> columns.

(** [data[column].dtype.name].  Indexing a frame by a label selects the
    columns that carry it: one column is a series, which has a dtype;
    several are a frame again, which has none (it has [dtypes]), so the
    attribute lookup raises. *)
Definition dtype_name_of (columns : list Column) (column : string)
    : Res string :=
  match filter (λ c, column_label c = column) columns with
  | [] => inl (KeyError column)
  | [series] => inr (dtype_name series)
  | _ => inl (AttributeError "'DataFrame' object has no attribute 'dtype'")
  end.

(** [[column for column in data
      if data[column].dtype.name not in PANDAS_DTYPES]]. *)
Fixpoint bad_columns (columns : list Column) (labels : list string)
    : Res (list string) :=
  match labels with
  | [] => inr []
  | column :: rest =>
      res_bind (dtype_name_of columns column) (λ name,
      res_bind (bad_columns columns rest) (λ bad_data,
        inr (if bool_decide (PANDAS_DTYPES !! name = None)
             then column :: bad_data else bad_data)))
  end.

Definition extract_pandas_data (data : PyObject) : Res PyObject :=
  match data with
  | DataFrame columns =>
      res_bind (bad_columns columns (labels_of columns)) (λ bad_data,
        match bad_data with
        | [] => inr (NdArray (astype "float" (values columns)))
        | _ =>
            res_bind
              (res_mapM (λ column,
                 res_bind (dtype_name_of columns column) (λ name,
                   inr ("'" +:+ column +:+ "' type='" +:+ name +:+ "'")))
                 bad_data)
              (λ error_report,
                 inl (ValueError
                        ("Data types for extracting pandas data must be int, float, or bool. Found: "
                         +:+ join ", " error_report)))
        end)
  | _ => inr data
  end.

(** The dtype names the table lists. *)
Definition listed_dtypes : list string :=
  ["int8"; "int16"; "int32"; "int64";
   "uint8"; "uint16"; "uint32"; "uint64";
   "float16"; "float32"; "float64"; "bool"].

(** [DataFrame.as_matrix()] gives the array that [.values] gives. *)
Definition extract_pandas_matrix (data : PyObject) : Res PyObject :=
  match data with
  | DataFrame columns => inr (NdArray (values columns))
  | _ => inr data
  end.

Definition extract_pandas_labels (labels : PyObject) : Res PyObject :=
  match labels with
  | DataFrame columns =>
      if bool_decide (1 < length columns)
      then inl (ValueError "Only one column for labels is allowed.")
      else
        res_bind (bad_columns columns (labels_of columns)) (λ bad_data,
          match bad_data with
          | [] => inr (NdArray (values columns))
          | _ =>
              res_bind
                (res_mapM (λ column,
                   res_bind (dtype_name_of columns column) (λ name,
                     inr ("'" +:+ column +:+ "' type=" +:+ name)))
                   bad_data)
                (λ error_report,
                   inl (ValueError
                          ("Data types for extracting labels must be int, float, or bool. Found: "
                           +:+ join ", " error_report)))
          end)
  | _ => inr labels
  end.

End pandas_io.

(** ** A concrete framework and concrete estimators

    A small instance of the imported libraries, on which the model runs:
    signatures record dtype and shape, two tensors are compatible when their
    dtypes are equal and their shapes compatible, training leaves a
    checkpoint in the output directory, and the session serves the batches
    of a fixed table until it signals the end of the input. *)
Module Example.

Definition signature_of (t : Tensor) : TensorSignature :=
  match t with
  | GraphTensor _ dtype shape =>
      {| sig_dtype := dtype; sig_shape := shape; sig_is_sparse := false |}
  | Reshape _ dims =>
      {| sig_dtype := "float32"; sig_shape := Some (Some <$> dims);
         sig_is_sparse := false |}
  end.

Definition tensor_matches (t : Tensor) (s : TensorSignature) : bool :=
  bool_decide (sig_dtype (signature_of t) = sig_dtype s)
  && is_compatible_with (sig_shape (signature_of t)) (sig_shape s).

Definition to_tensor (v : Value) : Res Tensor :=
  match v with
  | VTensor t => inr t
  | VOperation _ => inl (TypeError "Can't convert Operation to Tensor.")
  | VOther repr => inr (GraphTensor repr "float32" (Some []))
  end.

Definition batches : list (gmap string ndarray) :=
  [ {[ "predictions" := [[1%Z]; [2%Z]] ]};
    {[ "predictions" := [[3%Z]] ]} ].

Definition framework : Framework := {|
  is_tensor d := match d with TensorData _ => true | ArrayData _ => false end;
  convert_to_tensor := to_tensor;
  convert_to_tensor_or_sparse_tensor := to_tensor;
  setup_train_data_feeder x y batch_size shuffle epochs :=
    inr {| input_builder :=
             inr (InputPair
               (Some (One (GraphTensor "input" "float32" (Some [None; Some 1%Z]))))
               (match y with
                | Some _ => Some (One (GraphTensor "output" "float32" (Some [None])))
                | None => None
                end));
           get_feed_dict_fn := λ n, FeedDict ∅ |};
  create_signatures ts :=
    match ts with
    | Some (One t) => Some (One (signature_of t))
    | Some (Dict d) => Some (Dict (signature_of <$> d))
    | None => None
    end;
  tensors_compatible ts sigs :=
    match ts, sigs with
    | Some (One t), One s => tensor_matches t s
    | _, _ => false
    end;
  create_placeholders_from_signatures sigs :=
    match sigs with
    | Some (One s) =>
        Some (One (GraphTensor "placeholder" (sig_dtype s) (sig_shape s)))
    | _ => None
    end;
  streaming_mean v :=
    match v with
    | Some t => MetricSeq [Reshape t []; t]
    | None => MetricSeq []
    end;
  _monitored_train req ckpts :=
    (inr 0%Z,
     <[train_output_dir req := train_output_dir req +:+ "/model.ckpt"]> ckpts);
  graph_actions_evaluate req := inr (Some ∅, 0%Z);
  graph_actions_infer path outputs := inr ((λ _, []) <$> outputs);
  graph_actions_run_feeds outputs feed_fn path := inr [];
  session_run path outputs feed n :=
    match batches !! n with
    | Some b => inr b
    | None => inl OutOfRangeError
    end
|}.

Definition config (mode : option string) : RunConfig :=
  {| execution_mode := mode; tf_random_seed := None; task := 0;
     is_chief := true; training_worker_max_startup_secs := 0;
     training_worker_session_startup_stagger_secs := 0 |}.

Definition x_tensor : Tensor :=
  GraphTensor "x" "float32" (Some [None; Some 4%Z]).
Definition wide_tensor : Tensor :=
  GraphTensor "x" "float32" (Some [None; Some 7%Z]).
Definition loss_tensor : Tensor := GraphTensor "loss" "float32" (Some []).
Definition vector_loss : Tensor :=
  GraphTensor "loss" "float32" (Some [Some 3%Z]).
Definition boxed_loss : Tensor :=
  GraphTensor "loss" "float32" (Some [Some 1%Z; Some 1%Z]).
Definition prediction_tensor : Tensor :=
  GraphTensor "logits" "float32" (Some [None]).

(** A model function that ignores how it is called. *)
Definition constant_model_fn (args : list string)
    (out : option (OneOrDict Value) * option Value * option Value)
    : ModelFn :=
  {| model_fn_callable := PyFunction args; model_fn_run := λ _, inr out |}.

Definition full_output
    : option (OneOrDict Value) * option Value * option Value :=
  (Some (One (VTensor prediction_tensor)), Some (VTensor loss_tensor),
   Some (VOperation (GraphOp "train"))).

Definition model_fn : ModelFn :=
  constant_model_fn ["features"; "targets"] full_output.

(** A model function whose only named prediction is called "loss". *)
Definition loss_named_model_fn : ModelFn :=
  constant_model_fn ["features"; "targets"]
    (Some (Dict {[ "loss" := VTensor prediction_tensor ]}),
     Some (VTensor loss_tensor), None).

(** A function declared as (features, targets, params): called without
    params it fails like any call that misses an argument. *)
Definition params_only_model_fn : ModelFn :=
  {| model_fn_callable := PyFunction ["features"; "targets"; "params"];
     model_fn_run call :=
       match call_params call with
       | Some _ => inr full_output
       | None =>
           inl (TypeError "model_fn() takes exactly 3 arguments (2 given)")
       end |}.

(** A bound method declared as (self, features, targets, mode):
    introspection reports four arguments, and the method takes features,
    targets and mode. *)
Definition method_model_fn : ModelFn :=
  {| model_fn_callable :=
       PyFunction ["self"; "features"; "targets"; "mode"];
     model_fn_run call :=
       match call_mode call, call_params call with
       | Some _, None => inr full_output
       | _, _ =>
           inl (TypeError "model_fn() got an unexpected number of arguments")
       end |}.

(** Model functions that return nothing at all, and a loss of shape
    [1, 1]. *)
Definition empty_model_fn : ModelFn :=
  constant_model_fn ["features"; "targets"] (None, None, None).
Definition boxed_model_fn : ModelFn :=
  constant_model_fn ["features"; "targets"; "mode"]
    (None, Some (VTensor boxed_loss), Some (VOperation (GraphOp "train"))).

Definition outputs : gmap string (option Tensor) :=
  {[ "predictions" := Some prediction_tensor ]}.

(** The estimator [Estimator(model_fn, model_dir="/m", config)]. *)
Definition estimator (mode : option string) : BaseEstimator :=
  {| _model_dir := "/m";
     _config := config mode;
     _get_train_ops :=
       @Estimator_get_train_ops framework (Some model_fn) None
         _identity_feature_engineering_fn;
     _get_eval_ops :=
       @Estimator_get_eval_ops framework (Some model_fn) None
         _identity_feature_engineering_fn;
     _get_predict_ops :=
       @Estimator_get_predict_ops framework (Some model_fn) None
         _identity_feature_engineering_fn |}.

Definition input_fn (t : Tensor) : InputFn :=
  inr (InputPair (Some (One t)) None).

(** A fresh estimator object next to an empty checkpoint store. *)
Definition unfit : State :=
  {| _features_info := None; _targets_info := None; _graph := None;
     checkpoints := ∅; events := [] |}.

(** An estimator object that was fit on [x_tensor]. *)
Definition fitted : State :=
  {| _features_info := Some (One (signature_of x_tensor));
     _targets_info := None; _graph := Some 0;
     checkpoints := {[ "/m" := "/m/model.ckpt" ]};
     events := [NewGraph] |}.

(** A configuration that staggers the start of its tasks: the third task
    would wait ten seconds, and the cap is eight. *)
Definition staggered_config : RunConfig :=
  {| execution_mode := Some "all"; tf_random_seed := None; task := 2;
     is_chief := false; training_worker_max_startup_secs := 8;
     training_worker_session_startup_stagger_secs := 5 |}.

Definition staggered_estimator : BaseEstimator :=
  {| _model_dir := "/m";
     _config := staggered_config;
     _get_train_ops := _get_train_ops (estimator None);
     _get_eval_ops := _get_eval_ops (estimator None);
     _get_predict_ops := _get_predict_ops (estimator None) |}.

(** The estimator object after the signature check of its first fit on
    [x_tensor]. *)
Definition checked : State :=
  {| _features_info := Some (One (signature_of x_tensor));
     _targets_info := None; _graph := Some 0;
     checkpoints := ∅; events := [NewGraph] |}.

(** A model function with two named predictions. *)
Definition classes_tensor : Tensor :=
  GraphTensor "classes" "int64" (Some [None]).
Definition probabilities_tensor : Tensor :=
  GraphTensor "probabilities" "float32" (Some [None; Some 2%Z]).

Definition named_predictions : gmap string Value :=
  {[ "classes" := VTensor classes_tensor;
     "probabilities" := VTensor probabilities_tensor ]}.

Definition dict_model_fn : ModelFn :=
  constant_model_fn ["features"; "targets"]
    (Some (Dict named_predictions), Some (VTensor loss_tensor),
     Some (VOperation (GraphOp "train"))).

Definition dict_estimator : BaseEstimator :=
  {| _model_dir := "/m";
     _config := config None;
     _get_train_ops :=
       @Estimator_get_train_ops framework (Some dict_model_fn) None
         _identity_feature_engineering_fn;
     _get_eval_ops :=
       @Estimator_get_eval_ops framework (Some dict_model_fn) None
         _identity_feature_engineering_fn;
     _get_predict_ops :=
       @Estimator_get_predict_ops framework (Some dict_model_fn) None
         _identity_feature_engineering_fn |}.

(** A metric spec that builds one tensor. *)
Definition accuracy : MetricOps :=
  MetricTensor (GraphTensor "accuracy" "float32" (Some [])).
Definition accuracy_spec : Metric := MetricSpec (λ _ _ _, inr accuracy).

(** Feed functions: one that always has a feed, one whose second call
    fails. *)
Definition steady_feed : FeedFn := λ _, FeedDict ∅.
Definition failing_feed : FeedFn :=
  λ n, if bool_decide (n = 1) then FeedRaises (OtherError "feed failed")
       else FeedDict ∅.

(** The framework with an eager run that returns what the session gives
    feed by feed. *)
Definition consistent_framework : Framework :=
  {| is_tensor := @is_tensor framework;
     convert_to_tensor := @convert_to_tensor framework;
     convert_to_tensor_or_sparse_tensor :=
       @convert_to_tensor_or_sparse_tensor framework;
     setup_train_data_feeder := @setup_train_data_feeder framework;
     create_signatures := @create_signatures framework;
     tensors_compatible := @tensors_compatible framework;
     create_placeholders_from_signatures :=
       @create_placeholders_from_signatures framework;
     streaming_mean := @streaming_mean framework;
     _monitored_train := @_monitored_train framework;
     graph_actions_evaluate := @graph_actions_evaluate framework;
     graph_actions_infer := @graph_actions_infer framework;
     graph_actions_run_feeds outputs feed_fn path := inr batches;
     session_run := @session_run framework |}.

(** A model function whose loss has three elements and that returns
    neither predictions nor a training op. *)
Definition vector_loss_model_fn : ModelFn :=
  constant_model_fn ["features"; "targets"]
    (None, Some (VTensor vector_loss), None).




(** A frame with one column of small integers. *)
Definition one_column : list pandas_io.Column :=
  [ {| pandas_io.column_label := "label"; pandas_io.dtype_name := "int8";
       pandas_io.column_cells := ["0"; "1"] |} ].

End Example.

(** ** Vocabulary of the statements *)

(** The argument combinations the input adapter refuses. *)
Definition conflicting_inputs (x y : option Data) (input_fn : option InputFn)
    (batch_size : option Z) : Prop :=
  (is_Some input_fn ∧ (is_Some x ∨ is_Some y ∨ is_Some batch_size))
  ∨ (x = None ∧ input_fn = None).

(** The configuration lets this process evaluate: it has no execution mode,
    or one of the three evaluating modes. *)
Definition evaluation_enabled (cfg : RunConfig) : Prop :=
  match execution_mode cfg with
  | None => True
  | Some mode => mode ∈ ["all"; "evaluate"; "eval_evalset"]
  end.

(** The configuration lets this process train. *)
Definition training_enabled (cfg : RunConfig) : Prop :=
  match execution_mode cfg with
  | None => True
  | Some mode => mode ∈ ["all"; "train"]
  end.

(** The [metrics] argument is [None] or a dict. *)
Definition metrics_is_None_or_dict (metrics : option MetricsArg) : Prop :=
  match metrics with
  | Some (MetricsOther _) => False
  | _ => True
  end.

(** The state after one more event. *)
Definition with_event (e : Event) (s : State) : State :=
  {| _features_info := _features_info s; _targets_info := _targets_info s;
     _graph := _graph s; checkpoints := checkpoints s;
     events := e :: events s |}.


(** The input is exhausted at the [n]-th batch: the feed function raises
    StopIteration there, or the feed function or the session signals
    out-of-range. *)
Definition input_exhausted_at `{Framework} (checkpoint_path : string)
    (predictions : gmap string (option Tensor)) (feed_fn : option FeedFn)
    (n : nat) : Prop :=
  (∃ f, feed_fn = Some f ∧ f n = FeedStopIteration)
  ∨ (∃ f, feed_fn = Some f ∧ f n = FeedRaises OutOfRangeError)
  ∨ (∃ feed, feed_dicts feed_fn n = Yield feed
             ∧ session_run checkpoint_path predictions feed n
               = inl OutOfRangeError).

(** The predictions one step of the engine's iterator contributes. *)
Definition step_items `{Framework} (return_dict : bool)
    (step : IterStep (gmap string ndarray)) : list Prediction :=
  match step with
  | Yield output_batch => (unpack_batch return_dict output_batch).1
  | _ => []
  end.

(** ** The rest of the estimator file *)

Section FeatureColumns.
Context `{Framework}.
(* [layers.infer_real_valued_columns], of the imported layers library. *)
Variable FeatureColumn : Type.
Variable infer_real_valued_columns : option Tensors → Res (list FeatureColumn).

Definition infer_real_valued_columns_from_input_fn (input_fn : InputFn)
    : M (list FeatureColumn) :=
  new_graph ;;
  ft <- lift (unpack_input input_fn) ;;
  lift (infer_real_valued_columns ft.1).

Definition infer_real_valued_columns_from_input (x : option Data)
    : M (list FeatureColumn) :=
  fns <- lift (_get_input_fn x None None None None false (Some 1%Z)) ;;
  infer_real_valued_columns_from_input_fn fns.1.
End FeatureColumns.

Section ExampleParser.
Context `{Framework}.
(* [tensor_signature.create_example_parser_from_signatures]. *)
Variable create_example_parser_from_signatures :
  Signatures → Tensor → Res (option Tensors).

Definition _get_feature_ops_from_example (examples_batch : Tensor)
    : M (option Tensors) :=
  s <- get ;;
  match _features_info s with
  | None =>
      raise (ValueError "Features information missing, was fit() ever called?")
  | Some info =>
      lift (create_example_parser_from_signatures info examples_batch)
  end.
End ExampleParser.

(** ** More vocabulary *)

(** A method that leaves the estimator, the checkpoint store and the trace
    as they are. *)
Definition keeps_state {A} (m : M A) : Prop := ∀ s, (m s).2 = s.

(** The startup stagger of [_train_model]: the sleep it takes, if any. *)
Definition startup_sleep (cfg : RunConfig) : list Event :=
  match execution_mode cfg with
  | None => []
  | Some _ =>
      let sleep_secs :=
        Z.min (training_worker_max_startup_secs cfg)
              (task cfg * training_worker_session_startup_stagger_secs cfg) in
      if bool_decide (sleep_secs = 0%Z) then [] else [Sleep sleep_secs]
  end.

(** The state in which [_train_model] calls the input function: it has
    slept, built its graph and stored it. *)
Definition train_start (cfg : RunConfig) (s : State) : State :=
  let s0 := foldr with_event s (startup_sleep cfg) in
  {| _features_info := _features_info s; _targets_info := _targets_info s;
     _graph := Some (graphs_built s0); checkpoints := checkpoints s;
     events := NewGraph :: events s0 |}.

(** The state in which [_evaluate_model] and [_infer_model] call the input
    function: the checkpoint was looked up and a graph built. *)
Definition inference_start (dir : string) (s : State) : State :=
  with_event NewGraph (with_event (LatestCheckpoint dir) s).

(** The hooks [_train_model] hands to the training loop: the monitors that
    are session hooks, then one adapter around the other monitors, pruned
    on a process that is not chief to those that run on all workers. *)
Definition monitor_hooks (supervisor_is_chief : bool)
    (monitors : option (list Monitor)) : list Hook :=
  let monitors := default [] monitors in
  let hooks :=
    SessionRunHook <$> filter (λ m, is_session_run_hook m = true) monitors in
  let deprecated_monitors :=
    filter (λ m, is_session_run_hook m = false) monitors in
  let deprecated_monitors :=
    if supervisor_is_chief then deprecated_monitors
    else filter (λ m, run_on_all_workers m = true) deprecated_monitors in
  match deprecated_monitors with
  | [] => hooks
  | _ => hooks ++ [RunHookAdapterForMonitors deprecated_monitors]
  end.

(** The targets [_make_metrics_ops] hands to the metrics: a dict with one
    entry is unpacked into its tensor. *)
Definition metric_targets (targets : option Tensors) : option Tensors :=
  match targets with
  | Some (Dict d) =>
      match map_to_list d with
      | [(_, t)] => Some (One t)
      | _ => targets
      end
  | _ => targets
  end.

(** A method that leaves the checkpoint store as it is. *)
Definition keeps_checkpoints {A} (m : M A) : Prop :=
  ∀ s, checkpoints (m s).2 = checkpoints s.

(** A method that leaves the stored signatures as they are. *)
Definition keeps_signatures {A} (m : M A) : Prop :=
  ∀ s, _features_info (m s).2 = _features_info s
       ∧ _targets_info (m s).2 = _targets_info s.

(** The stagger settings of a configuration are durations. *)
Definition stagger_is_a_duration (cfg : RunConfig) : Prop :=
  (0 ≤ training_worker_max_startup_secs cfg)%Z
  ∧ (0 ≤ task cfg * training_worker_session_startup_stagger_secs cfg)%Z.

(** The request [_train_model] makes of the training loop. *)
Definition train_request (self : BaseEstimator) (steps max_steps : option Z)
    (feed_fn : option FeedFn) (monitors : option (list Monitor))
    (ops : option Operation * option Tensor) : TrainRequest :=
  {| train_output_dir := _model_dir self;
     train_train_op := ops.1;
     train_loss_op := ops.2;
     train_feed_fn := feed_fn;
     train_steps := steps;
     train_max_steps := max_steps;
     train_hooks := monitor_hooks (is_chief (_config self)) monitors;
     train_supervisor_is_chief := is_chief (_config self) |}.

(** The request [_evaluate_model] makes of the evaluation loop. *)
Definition eval_request (self : BaseEstimator) (name : option string)
    (steps : option Z) (feed_fn : option FeedFn)
    (eval_dict : gmap MetricName MetricOps) : EvalRequest :=
  {| eval_output_dir :=
       match name with
       | None | Some "" => _model_dir self +:+ "/eval"
       | Some n => _model_dir self +:+ "/eval_" +:+ n
       end;
     eval_checkpoint_path := _model_dir self;
     eval_eval_dict := (_extract_metric_update_ops eval_dict).2;
     eval_update_op := (_extract_metric_update_ops eval_dict).1;
     eval_feed_fn := feed_fn;
     eval_max_steps := steps |}.

(** The items of a [metrics] argument that is None or a dict. *)
Definition metrics_items (metrics : option MetricsArg)
    : option (list (MetricName * Metric)) :=
  match metrics with
  | Some (MetricsDict items) => Some items
  | _ => None
  end.

(** The state with another checkpoint store. *)
Definition with_checkpoints (c : gmap string string) (s : State) : State :=
  {| _features_info := _features_info s; _targets_info := _targets_info s;
     _graph := _graph s; checkpoints := c; events := events s |}.

(** * Properties *)

Section InputAdapterFacts.
Context `{Framework}.

Lemma _get_input_fn_conflict x y input_fn feed_fn batch_size shuffle epochs :
  conflicting_inputs x y input_fn batch_size →
  ∃ msg, _get_input_fn x y input_fn feed_fn batch_size shuffle epochs
         = inl (ValueError msg).
Proof.
  unfold conflicting_inputs, _get_input_fn.
  intros [[[fn ->] Hany] | [-> ->]]; [|eauto].
  destruct x as [xv|]; simpl; [eauto|].
  destruct y as [yv|]; simpl; [eauto|].
  destruct batch_size as [b|]; simpl; [eauto|].
  destruct Hany as [[? ?] | [[? ?] | [? ?]]]; discriminate.
Qed.

Lemma bind_lift_raise {A B} (r : Res A) (k : A → M B) e s :
  r = inl e → (x <- lift r ;; k x) s = (inl e, s).
Proof. intros ->. reflexivity. Qed.

Lemma bind_lift_ok {A B} (r : Res A) (k : A → M B) a s :
  r = inr a → (x <- lift r ;; k x) s = k a s.
Proof. intros ->. reflexivity. Qed.

(** C2. fit, evaluate and predict refuse conflicting inputs: [x] or [y]
    together with [input_fn], [batch_size] together with [input_fn], or
    neither [x] nor [input_fn], raise ValueError, and the estimator is
    left as it was. *)
Theorem conflicting_inputs_raise_ValueError
    (self : BaseEstimator) x y input_fn feed_fn batch_size steps max_steps
    monitors metrics name outputs as_iterable s :
  conflicting_inputs x y input_fn batch_size →
  (∃ msg, fit self x y input_fn steps batch_size monitors max_steps s
          = (inl (ValueError msg), s))
  ∧ (∃ msg, evaluate self x y input_fn feed_fn batch_size steps metrics name s
            = (inl (ValueError msg), s))
  ∧ (conflicting_inputs x None input_fn batch_size →
     ∃ msg, predict self x input_fn batch_size outputs as_iterable s
            = (inl (ValueError msg), s)).
Proof.
  intros Hc. repeat split.
  - unfold fit. destruct (_ && _); [by eexists|].
    destruct (_get_input_fn_conflict x y input_fn None batch_size true None Hc)
      as [msg Hmsg].
    exists msg. by apply bind_lift_raise.
  - destruct (_get_input_fn_conflict x y input_fn feed_fn batch_size false
                (Some 1%Z) Hc) as [msg Hmsg].
    exists msg. unfold evaluate. by apply bind_lift_raise.
  - intros Hp.
    destruct (_get_input_fn_conflict x None input_fn None batch_size false
                (Some 1%Z) Hp) as [msg Hmsg].
    exists msg. unfold predict. by apply bind_lift_raise.
Qed.
End InputAdapterFacts.

Section LifecycleFacts.
Context `{Framework}.
Variable self : BaseEstimator.








End LifecycleFacts.

Section MonadFacts.
Lemma bind_raise {A B} (m : M A) (k : A → M B) e s s' :
  m s = (inl e, s') → bind m k s = (inl e, s').
Proof. unfold bind. by intros ->. Qed.

Lemma bind_ok {A B} (m : M A) (k : A → M B) a s s' :
  m s = (inr a, s') → bind m k s = k a s'.
Proof. unfold bind. by intros ->. Qed.

Lemma latest_checkpoint_run dir s :
  latest_checkpoint dir s
  = (inr (checkpoints s !! dir), with_event (LatestCheckpoint dir) s).
Proof. reflexivity. Qed.

Lemma new_graph_run s :
  new_graph s = (inr (graphs_built s), with_event NewGraph s).
Proof. reflexivity. Qed.
End MonadFacts.

Section SignatureFacts.
Context `{Framework}.



End SignatureFacts.

Section SignatureCheckCallers.
Context `{Framework}.
Variable self : BaseEstimator.


End SignatureCheckCallers.

Section SignatureTheorem.
Context `{Framework}.
Variable self : BaseEstimator.




End SignatureTheorem.

Section ModelFunctionFacts.
Context `{Framework}.
Variable _model_fn : option ModelFn.
Variable params : option Params.
Variable _feature_engineering_fn : FeatureEngineeringFn.

Local Abbreviation call_model_fn :=
  (_call_model_fn _model_fn params _feature_engineering_fn).
Local Abbreviation returns :=
  (model_fn_returns _model_fn params _feature_engineering_fn).

Lemma _call_model_fn_returns features targets mode out :
  returns features targets mode out →
  call_model_fn features targets mode = validate_outputs mode out.
Proof.
  intros (ft & call & f & Hfe & Hcall & Hf & Hrun).
  unfold _call_model_fn. rewrite Hfe. simpl. rewrite Hcall. simpl.
  rewrite Hf, Hrun. reflexivity.
Qed.

(** C4, amended. The three values the model function returns are checked
    in the order training_op, loss, predictions, and the first check that
    fails gives the error of the call.  A training_op of None in TRAIN mode
    raises ValueError 'Missing train_op.'.  A loss of None in TRAIN or EVAL
    mode makes the call raise: 'Missing loss.' when the training_op passed
    its check, the error of that check otherwise.  Predictions of None in
    INFER mode make the call raise: 'Missing predictions.' when the
    training_op and the loss passed their checks, the error of the first of
    them that failed otherwise.  In every other mode the None is accepted
    and handed on as None. *)
Theorem required_outputs_by_mode features targets mode predictions loss
    train_op :
  returns features targets mode (predictions, loss, train_op) →
  let r := call_model_fn features targets mode in
  (train_op = None → mode = TRAIN → r = inl (ValueError "Missing train_op."))
  ∧ (loss = None → mode = TRAIN ∨ mode = EVAL →
     (∃ e, r = inl e)
     ∧ (∀ e, validate_train_op mode train_op = inl e → r = inl e)
     ∧ ∀ op, validate_train_op mode train_op = inr op →
             r = inl (ValueError "Missing loss."))
  ∧ (predictions = None → mode = INFER →
     (∃ e, r = inl e)
     ∧ (∀ e, validate_train_op mode train_op = inl e → r = inl e)
     ∧ (∀ op e, validate_train_op mode train_op = inr op →
                validate_loss mode loss = inl e → r = inl e)
     ∧ ∀ op l, validate_train_op mode train_op = inr op →
               validate_loss mode loss = inr l →
               r = inl (ValueError "Missing predictions."))
  ∧ (train_op = None → mode ≠ TRAIN →
     validate_train_op mode train_op = inr None)
  ∧ (loss = None → mode = INFER → validate_loss mode loss = inr None)
  ∧ (predictions = None → mode ≠ INFER →
     validate_predictions mode predictions = inr None)
  ∧ (∀ op l p,
       validate_train_op mode train_op = inr op →
       validate_loss mode loss = inr l →
       validate_predictions mode predictions = inr p →
       r = inr (p, l, op)).
Proof.
  intros Hret r. subst r. rewrite (_call_model_fn_returns _ _ _ _ Hret).
  unfold validate_outputs. simpl.
  split; [|split; [|split; [|split; [|split; [|split]]]]].
  - by intros -> ->.
  - intros -> Hmode. split; [|split].
    + destruct (validate_train_op mode train_op) as [e|op]; simpl;
        [by eexists|].
      destruct Hmode as [-> | ->]; by eexists.
    + by intros e ->.
    + intros op ->. simpl. by destruct Hmode as [-> | ->].
  - intros -> ->. split; [|split; [|split]].
    + destruct (validate_train_op INFER train_op) as [e|op]; simpl;
        [by eexists|].
      destruct (validate_loss INFER loss) as [e|l]; simpl; by eexists.
    + by intros e ->.
    + by intros op e -> ->.
    + by intros op l -> ->.
  - intros ->. by destruct mode.
  - by intros -> ->.
  - intros ->. by destruct mode.
  - by intros op l p -> -> ->.
Qed.

Lemma dims_compatible_nil_r dims :
  dims ≠ [] → dims_compatible dims [] = false.
Proof. by destruct dims. Qed.

(** C5, amended. The loss is checked after the training_op, in every
    mode.  When the check of the training_op fails, its error is the error
    of the call, whatever the loss.  When it passes, a loss that was
    returned and converted to a tensor is refused with 'Loss must be scalar'
    when its shape has more than one element, is reshaped to a scalar when
    it has exactly one element and a rank other than 0, and is handed on as
    it is when it has rank 0. *)
Theorem loss_is_reduced_to_a_scalar features targets mode predictions v
    train_op loss :
  returns features targets mode (predictions, Some v, train_op) →
  convert_to_tensor v = inr loss →
  let r := call_model_fn features targets mode in
  (∀ e, validate_train_op mode train_op = inl e → r = inl e)
  ∧ (∀ op,
       validate_train_op mode train_op = inr op →
       (∀ n, num_elements (get_shape loss) = Some n → (1 < n)%Z →
             r = inl (ValueError "Loss must be scalar: %s."))
       ∧ (∀ dims p,
            get_shape loss = Some dims → dims ≠ [] →
            num_elements (get_shape loss) = Some 1%Z →
            validate_predictions mode predictions = inr p →
            r = inr (p, Some (reshape loss []), op)
            ∧ get_shape (reshape loss []) = scalar)
       ∧ (∀ p,
            get_shape loss = Some [] →
            validate_predictions mode predictions = inr p →
            r = inr (p, Some loss, op))).
Proof.
  intros Hret Hconv r. subst r.
  rewrite (_call_model_fn_returns _ _ _ _ Hret).
  unfold validate_outputs. simpl. split.
  - by intros e ->.
  - intros op ->. simpl.
    unfold validate_loss. rewrite Hconv. simpl.
    split; [|split].
    + intros n -> Hn. rewrite bool_decide_eq_false_2 by lia. done.
    + intros dims p Hdims Hne -> Hp. simpl. rewrite Hdims. simpl.
      rewrite dims_compatible_nil_r by done. simpl. by rewrite Hp.
    + intros p -> Hp. simpl. by rewrite Hp.
Qed.

(** C6, amended. The model function is dispatched by its declared
    argument names, not by their number: it is called with (features,
    targets) when no argument is named 'mode', with mode in addition when
    one is, and with mode and params when arguments named 'mode' and
    'params' both exist.  For the three documented signatures, (features,
    targets), (features, targets, mode) and (features, targets, mode,
    params), this is the dispatch by two, three and four arguments. *)
Theorem model_fn_is_called_by_argument_names f args features targets mode
    ft :
  _model_fn = Some f →
  _get_arguments (model_fn_callable f) = Some args →
  _feature_engineering_fn features targets = inr ft →
  let call m p :=
    {| call_features := ft.1; call_targets := ft.2;
       call_mode := m; call_params := p |} in
  let run c := res_bind (model_fn_run f c) (validate_outputs mode) in
  let r := call_model_fn features targets mode in
  ("mode" ∉ args → r = run (call None None))
  ∧ ("mode" ∈ args → "params" ∉ args → r = run (call (Some mode) None))
  ∧ ("mode" ∈ args → "params" ∈ args →
     r = run (call (Some mode) (Some params)))
  ∧ (args = ["features"; "targets"] → r = run (call None None))
  ∧ (args = ["features"; "targets"; "mode"] →
     r = run (call (Some mode) None))
  ∧ (args = ["features"; "targets"; "mode"; "params"] →
     r = run (call (Some mode) (Some params))).
Proof.
  intros Hf Hargs Hfe call run r.
  assert ("mode" ∉ args → r = run (call None None)) as Hnone.
  { intros Hm. subst r run call. unfold _call_model_fn, model_fn_call.
    rewrite Hfe, Hf. simpl. rewrite Hargs. simpl.
    by rewrite bool_decide_eq_false_2. }
  assert ("mode" ∈ args → "params" ∉ args →
          r = run (call (Some mode) None)) as Hmode.
  { intros Hm Hp. subst r run call. unfold _call_model_fn, model_fn_call.
    rewrite Hfe, Hf. simpl. rewrite Hargs. simpl.
    rewrite bool_decide_eq_true_2 by done. simpl.
    by rewrite bool_decide_eq_false_2. }
  assert ("mode" ∈ args → "params" ∈ args →
          r = run (call (Some mode) (Some params))) as Hboth.
  { intros Hm Hp. subst r run call. unfold _call_model_fn, model_fn_call.
    rewrite Hfe, Hf. simpl. rewrite Hargs. simpl.
    rewrite bool_decide_eq_true_2 by done. simpl.
    by rewrite bool_decide_eq_true_2. }
  repeat split; try done.
  - intros ->. apply Hnone. compute_done.
  - intros ->. apply Hmode; compute_done.
  - intros ->. apply Hboth; compute_done.
Qed.
End ModelFunctionFacts.

Section MetricsFacts.
Context `{Framework}.

Lemma _maybe_add_streaming_mean_lookup result key value k :
  _maybe_add_streaming_mean result key value !! k
  = match result !! k with
    | Some m => Some m
    | None =>
        if decide (k = NameStr key) then Some (streaming_mean value) else None
    end.
Proof.
  unfold _maybe_add_streaming_mean. case_bool_decide as Hk.
  - destruct (result !! k) as [m|] eqn:Hr; [done|].
    case_decide as Heq; [|done]. subst k. rewrite Hr in Hk.
    by destruct Hk.
  - destruct (decide (k = NameStr key)) as [->|Hne].
    + rewrite lookup_insert_eq.
      destruct (result !! NameStr key) as [m|] eqn:Hr; [|done].
      destruct Hk. by eexists.
    + rewrite lookup_insert_ne by done. by destruct (result !! k).
Qed.

(** The loop over the named predictions. *)
Local Abbreviation add_predictions :=
  (foldl (λ result (kv : string * Tensor),
            _maybe_add_streaming_mean result kv.1 (Some kv.2))).

Lemma add_predictions_keeps l : ∀ result k m,
  result !! k = Some m → add_predictions result l !! k = Some m.
Proof.
  induction l as [|[key v] l IH]; intros result k m Hk; simpl; [done|].
  apply IH. rewrite _maybe_add_streaming_mean_lookup. by rewrite Hk.
Qed.

Lemma add_predictions_adds l : ∀ result key v,
  NoDup l.*1 → (key, v) ∈ l → result !! NameStr key = None →
  add_predictions result l !! NameStr key = Some (streaming_mean (Some v)).
Proof.
  induction l as [|[key0 v0] l IH]; intros result key v Hnd Hin Hnone; simpl.
  - by apply elem_of_nil in Hin.
  - apply NoDup_cons in Hnd as [Hnotin Hnd].
    apply elem_of_cons in Hin as [[= -> ->] | Hin].
    + apply add_predictions_keeps.
      rewrite _maybe_add_streaming_mean_lookup, Hnone. simpl.
      by rewrite decide_True.
    + apply IH; [done..|].
      rewrite _maybe_add_streaming_mean_lookup, Hnone. simpl.
      rewrite decide_False; [done|].
      intros [= ->]. apply Hnotin.
      eapply (list_elem_of_fmap_2' fst); [exact Hin | done].
Qed.

Lemma add_predictions_only l : ∀ result k m,
  add_predictions result l !! k = Some m →
  result !! k = Some m
  ∨ ∃ key v, (key, v) ∈ l ∧ k = NameStr key
             ∧ m = streaming_mean (Some v).
Proof.
  induction l as [|[key0 v0] l IH]; intros result k m Hk; simpl in *;
    [by left|].
  apply IH in Hk as [Hk | (key & v & Hin & -> & ->)].
  - rewrite _maybe_add_streaming_mean_lookup in Hk.
    destruct (result !! k) as [m'|]; [by left|].
    case_decide as Heq; [|done]. injection Hk as <-.
    right. exists key0, v0. split; [apply elem_of_cons; by left | done].
  - right. exists key, v. split; [apply elem_of_cons; by right | done].
Qed.

Lemma _call_model_fn_EVAL_has_loss model_fn params fe features targets
    predictions loss train_op :
  _call_model_fn model_fn params fe features targets EVAL
  = inr (predictions, loss, train_op) →
  is_Some loss.
Proof.
  unfold _call_model_fn, validate_outputs, res_bind.
  repeat case_match; try done.
  intros [= <- <- <-].
  match goal with
  | Hl : validate_loss EVAL _ = inr _ |- _ =>
      unfold validate_loss, res_bind in Hl; repeat case_match; simplify_eq
  end; by eexists.
Qed.

(** C7, amended. The evaluation ops keep every entry of the user's
    metrics result as it is, and add a streaming mean under 'loss' for the
    loss, and under the key of each named prediction (or under
    'predictions' for a single un-named prediction), when that key is not
    in the result already: neither among the user's entries nor, for a
    prediction named 'loss', taken by the streaming mean of the loss added
    just before.  Nothing else is added, and the estimator is left as it
    was. *)
Theorem eval_ops_add_streaming_means model_fn params fe features targets
    metrics predictions loss train_op user s :
  _call_model_fn model_fn params fe features targets EVAL
  = inr (predictions, loss, train_op) →
  _make_metrics_ops metrics features targets predictions = inr user →
  ∃ result,
    Estimator_get_eval_ops model_fn params fe features targets metrics s
    = (inr result, s)
    ∧ is_Some loss
    ∧ (∀ k m, user !! k = Some m → result !! k = Some m)
    ∧ (user !! NameStr "loss" = None →
       result !! NameStr "loss" = Some (streaming_mean loss))
    ∧ (∀ d key v,
         predictions = Some (Dict d) → d !! key = Some v →
         user !! NameStr key = None → key ≠ "loss" →
         result !! NameStr key = Some (streaming_mean (Some v)))
    ∧ (∀ p,
         predictions = Some (One p) →
         user !! NameStr "predictions" = None →
         result !! NameStr "predictions" = Some (streaming_mean (Some p)))
    ∧ (∀ k m,
         result !! k = Some m →
         user !! k = Some m
         ∨ (k = NameStr "loss" ∧ m = streaming_mean loss)
         ∨ (∃ d key v, predictions = Some (Dict d) ∧ d !! key = Some v
                       ∧ k = NameStr key ∧ m = streaming_mean (Some v))
         ∨ (∃ p, predictions = Some (One p) ∧ k = NameStr "predictions"
                 ∧ m = streaming_mean (Some p))).
Proof.
  intros Hcall Huser.
  eexists. split.
  { unfold Estimator_get_eval_ops.
    rewrite (bind_lift_ok _ _ _ _ Hcall). simpl.
    rewrite (bind_lift_ok _ _ _ _ Huser). reflexivity. }
  split; [by eapply _call_model_fn_EVAL_has_loss|].
  set (r1 := _maybe_add_streaming_mean user "loss" loss).
  assert (∀ k m, user !! k = Some m → r1 !! k = Some m) as Hkeep1.
  { intros k m Hk. subst r1.
    by rewrite _maybe_add_streaming_mean_lookup, Hk. }
  assert (∀ k m, r1 !! k = Some m →
            user !! k = Some m
            ∨ (k = NameStr "loss" ∧ m = streaming_mean loss)) as Honly1.
  { intros k m Hk. subst r1.
    rewrite _maybe_add_streaming_mean_lookup in Hk.
    destruct (user !! k); [by left|].
    case_decide; [|done]. injection Hk as <-. by right. }
  split; [|split; [|split; [|split]]].
  - intros k m Hk. apply Hkeep1 in Hk.
    destruct predictions as [[p|d]|]; simpl; [| |done].
    + by rewrite _maybe_add_streaming_mean_lookup, Hk.
    + by apply add_predictions_keeps.
  - intros Hnone.
    assert (r1 !! NameStr "loss" = Some (streaming_mean loss)) as Hk.
    { subst r1. rewrite _maybe_add_streaming_mean_lookup, Hnone.
      by rewrite decide_True. }
    destruct predictions as [[p|d]|]; simpl; [| |done].
    + by rewrite _maybe_add_streaming_mean_lookup, Hk.
    + by apply add_predictions_keeps.
  - intros d key v -> Hd Hnone Hne. simpl.
    apply add_predictions_adds.
    + apply NoDup_fst_map_to_list.
    + by apply elem_of_map_to_list.
    + subst r1. rewrite _maybe_add_streaming_mean_lookup, Hnone.
      rewrite decide_False; [done|]. by intros [= ->].
  - intros p -> Hnone. simpl.
    rewrite _maybe_add_streaming_mean_lookup.
    assert (r1 !! NameStr "predictions" = None) as ->.
    { subst r1. rewrite _maybe_add_streaming_mean_lookup, Hnone.
      by rewrite decide_False. }
    by rewrite decide_True.
  - intros k m Hk.
    destruct predictions as [[p|d]|]; simpl in Hk.
    + rewrite _maybe_add_streaming_mean_lookup in Hk.
      destruct (r1 !! k) as [m'|] eqn:Hr1.
      * injection Hk as <-. apply Honly1 in Hr1 as [?|?]; tauto.
      * case_decide; [|done]. injection Hk as <-.
        right. right. right. by exists p.
    + apply add_predictions_only in Hk as [Hk | (key & v & Hin & -> & ->)].
      * apply Honly1 in Hk as [?|?]; tauto.
      * right. right. left. exists d, key, v.
        by apply elem_of_map_to_list in Hin.
    + apply Honly1 in Hk as [?|?]; tauto.
Qed.
End MetricsFacts.

Section StreamingFacts.
Context `{Framework}.
Variable checkpoint_path : string.
Variable predictions : gmap string (option Tensor).
Variable feed_fn : option FeedFn.
Variable return_dict : bool.

Local Abbreviation engine :=
  (run_feeds_iter predictions (feed_dicts feed_fn) checkpoint_path).
Local Abbreviation generator :=
  (λ fuel, _infer_model_as_iterable fuel checkpoint_path predictions feed_fn
             return_dict).

Lemma exhausted_engine n :
  input_exhausted_at checkpoint_path predictions feed_fn n →
  engine n = StopIteration ∨ engine n = Raise OutOfRangeError.
Proof.
  unfold input_exhausted_at, run_feeds_iter.
  intros [(f & -> & Hf) | [(f & -> & Hf) | (feed & Hfeed & Hrun)]].
  - left. simpl. by rewrite Hf.
  - right. simpl. by rewrite Hf.
  - right. by rewrite Hfeed, Hrun.
Qed.

Lemma generator_stops_at_end fuel n :
  engine n = StopIteration ∨ engine n = Raise OutOfRangeError →
  generator (S fuel) n = ([], Returned).
Proof. intros [Hn | Hn]; simpl; by rewrite Hn. Qed.

Lemma generator_step fuel n output_batch :
  engine n = Yield output_batch →
  (unpack_batch return_dict output_batch).2 = None →
  generator (S fuel) n
  = ((unpack_batch return_dict output_batch).1 ++ (generator fuel (S n)).1,
     (generator fuel (S n)).2).
Proof.
  intros Hn Hok. simpl. rewrite Hn.
  destruct (unpack_batch return_dict output_batch) as [items [e|]];
    simpl in *; done.
Qed.

Lemma generator_never_raises_OutOfRangeError fuel : ∀ n,
  (generator fuel n).2 ≠ Raised OutOfRangeError.
Proof.
  induction fuel as [|fuel IH]; intros n; simpl; [done|].
  destruct (engine n) as [output_batch| |e]; [|done|by destruct e].
  destruct (unpack_batch return_dict output_batch) as [items [e|]]; simpl.
  - by destruct e.
  - apply IH.
Qed.

(** C8. When the input of a lazy prediction sequence is exhausted at some
    batch (the feed function raises StopIteration, or the feed function or
    the session signals out-of-range) and the batches before it unpack,
    the generator yields the predictions of those batches and returns:
    the consumer sees the end of the sequence, no exception.  In no case
    does an out-of-range error leave the generator. *)
Theorem exhausted_input_ends_the_sequence k fuel n :
  (∀ j, j < k →
     ∃ output_batch,
       engine (n + j) = Yield output_batch
       ∧ (unpack_batch return_dict output_batch).2 = None) →
  input_exhausted_at checkpoint_path predictions feed_fn (n + k) →
  k < fuel →
  generator fuel n
  = (mjoin ((λ j, step_items return_dict (engine j)) <$> seq n k), Returned)
  ∧ ∀ fuel' n', (generator fuel' n').2 ≠ Raised OutOfRangeError.
Proof.
  intros Hbatches Hend Hfuel.
  split; [|intros; apply generator_never_raises_OutOfRangeError].
  apply exhausted_engine in Hend.
  revert fuel n Hbatches Hend Hfuel.
  induction k as [|k IH]; intros fuel n Hbatches Hend Hfuel.
  - destruct fuel as [|fuel]; [lia|].
    rewrite Nat.add_0_r in Hend. by apply generator_stops_at_end.
  - destruct fuel as [|fuel]; [lia|].
    destruct (Hbatches 0 ltac:(lia)) as (output_batch & Hn & Hok).
    rewrite Nat.add_0_r in Hn.
    rewrite (generator_step _ _ _ Hn Hok).
    rewrite (IH fuel (S n)).
    + simpl. unfold step_items at 1. by rewrite Hn.
    + intros j Hj. destruct (Hbatches (S j) ltac:(lia)) as (b & Hb & Hbok).
      exists b. split; [|done]. by rewrite <- Nat.add_succ_comm in Hb.
    + by rewrite <- Nat.add_succ_comm in Hend.
    + lia.
Qed.
End StreamingFacts.

Section PandasFacts.
Import pandas_io.

Lemma PANDAS_DTYPES_listed name :
  PANDAS_DTYPES !! name = None ↔ name ∉ listed_dtypes.
Proof.
  unfold PANDAS_DTYPES. rewrite <- not_elem_of_list_to_map. reflexivity.
Qed.

Lemma bad_data_nil columns :
  filter (λ column, PANDAS_DTYPES !! dtype_name column = None) columns = []
  ↔ Forall (λ column, dtype_name column ∈ listed_dtypes) columns.
Proof.
  induction columns as [|c columns IH]; [by split|].
  rewrite filter_cons, Forall_cons.
  destruct (decide (PANDAS_DTYPES !! dtype_name c = None)) as [Hc|Hc].
  - split; [done|]. intros [Hin _].
    by apply PANDAS_DTYPES_listed in Hc.
  - rewrite IH. split; [|tauto]. intros Hall. split; [|done].
    destruct (decide (dtype_name c ∈ listed_dtypes)) as [|Hnot]; [done|].
    by apply PANDAS_DTYPES_listed in Hnot.
Qed.

Lemma bad_data_cons columns bad rest :
  filter (λ column, PANDAS_DTYPES !! dtype_name column = None) columns
  = bad :: rest →
  Exists (λ column, dtype_name column ∉ listed_dtypes) columns.
Proof.
  intros Hfilter.
  assert (bad ∈ filter
            (λ column, PANDAS_DTYPES !! dtype_name column = None) columns)
    as Hin by (rewrite Hfilter; apply elem_of_cons; by left).
  apply list_elem_of_filter in Hin as [Hnone Hin].
  apply Exists_exists. exists bad. split; [done|].
  by apply PANDAS_DTYPES_listed.
Qed.

(** Under distinct labels, indexing by the label of a column selects that
    column alone. *)
Lemma label_selects_the_column columns c :
  NoDup (labels_of columns) → c ∈ columns →
  filter (λ c', column_label c' = column_label c) columns = [c].
Proof.
  unfold labels_of.
  induction columns as [|c0 columns IH]; intros Hnodup Hin.
  - by apply elem_of_nil in Hin.
  - rewrite fmap_cons in Hnodup. apply NoDup_cons in Hnodup as [Hfresh Hnodup].
    destruct (decide (column_label c0 = column_label c)) as [Heq|Hne].
    + rewrite filter_cons_True by done.
      assert (c = c0) as ->.
      { apply elem_of_cons in Hin as [->|Hin]; [done|].
        destruct Hfresh. rewrite Heq. by apply list_elem_of_fmap_2. }
      f_equal.
      destruct (filter _ columns) as [|c' rest] eqn:Hfilter; [done|].
      assert (c' ∈ filter (λ c', column_label c' = column_label c0) columns)
        as Hc' by (rewrite Hfilter; apply elem_of_cons; by left).
      apply list_elem_of_filter in Hc' as [Hlabel Hc'].
      destruct Hfresh. rewrite <- Hlabel. by apply list_elem_of_fmap_2.
    + rewrite filter_cons_False by done. apply IH; [done|].
      apply elem_of_cons in Hin as [->|Hin]; done.
Qed.

Lemma dtype_name_of_distinct columns c :
  NoDup (labels_of columns) → c ∈ columns →
  dtype_name_of columns (column_label c) = inr (dtype_name c).
Proof.
  intros Hnodup Hin. unfold dtype_name_of.
  by rewrite label_selects_the_column.
Qed.

Lemma bad_columns_distinct columns cs :
  NoDup (labels_of columns) → Forall (λ c, c ∈ columns) cs →
  bad_columns columns (labels_of cs)
  = inr (labels_of
           (filter (λ column, PANDAS_DTYPES !! dtype_name column = None) cs)).
Proof.
  intros Hnodup. induction 1 as [|c cs Hc _ IH]; [done|].
  unfold labels_of in *. rewrite fmap_cons. simpl.
  rewrite dtype_name_of_distinct by done. simpl. rewrite IH. simpl.
  case_bool_decide.
  - by rewrite filter_cons_True.
  - by rewrite filter_cons_False.
Qed.

Lemma error_report_distinct (fmt : string → string → string) columns cs :
  NoDup (labels_of columns) → Forall (λ c, c ∈ columns) cs →
  res_mapM (λ column,
              res_bind (dtype_name_of columns column)
                       (λ name, inr (fmt column name)))
           (labels_of cs)
  = inr ((λ c, fmt (column_label c) (dtype_name c)) <$> cs).
Proof.
  intros Hnodup. induction 1 as [|c cs Hc _ IH]; [done|].
  unfold labels_of in *. rewrite !fmap_cons. simpl.
  rewrite dtype_name_of_distinct by done. simpl. by rewrite IH.
Qed.

Lemma filter_within {A} (P : A → Prop) `{!∀ x, Decision (P x)} (l : list A) :
  Forall (λ x, x ∈ l) (filter P l).
Proof.
  apply Forall_forall. intros x Hx. by apply list_elem_of_filter in Hx as [_ ?].
Qed.

(** On distinct labels the data extractor is decided by the dtypes of the
    columns. *)
Lemma extract_pandas_data_distinct columns :
  NoDup (labels_of columns) →
  extract_pandas_data (DataFrame columns)
  = match filter (λ column, PANDAS_DTYPES !! dtype_name column = None)
                 columns with
    | [] => inr (NdArray (astype "float" (values columns)))
    | bad_data =>
        inl (ValueError
               ("Data types for extracting pandas data must be int, float, or bool. Found: "
                +:+ join ", "
                      ((λ c, "'" +:+ column_label c +:+ "' type='" +:+
                             dtype_name c +:+ "'") <$> bad_data)))
    end.
Proof.
  intros Hnodup. unfold extract_pandas_data.
  rewrite bad_columns_distinct; [|done|by apply Forall_forall].
  pose proof (filter_within
                (λ column, PANDAS_DTYPES !! dtype_name column = None) columns)
    as Hwithin.
  destruct (filter _ columns) as [|bad rest]; [done|].
  change (labels_of (bad :: rest))
    with (column_label bad :: labels_of rest).
  cbv beta iota. unfold res_bind at 1.
  change (column_label bad :: labels_of rest) with (labels_of (bad :: rest)).
  by rewrite (error_report_distinct
                (λ column name, "'" +:+ column +:+ "' type='" +:+ name +:+ "'")
                columns (bad :: rest) Hnodup Hwithin).
Qed.

Lemma few_columns_are_distinct columns :
  length columns ≤ 1 → NoDup (labels_of columns).
Proof.
  destruct columns as [|c [|c' columns]]; simpl; intros Hfew.
  - apply NoDup_nil_2.
  - apply NoDup_singleton.
  - lia.
Qed.

(** With at most one column the label extractor is decided by the dtype of
    the column. *)
Lemma extract_pandas_labels_few columns :
  length columns ≤ 1 →
  extract_pandas_labels (DataFrame columns)
  = match filter (λ column, PANDAS_DTYPES !! dtype_name column = None)
                 columns with
    | [] => inr (NdArray (values columns))
    | bad_data =>
        inl (ValueError
               ("Data types for extracting labels must be int, float, or bool. Found: "
                +:+ join ", "
                      ((λ c, "'" +:+ column_label c +:+ "' type=" +:+
                             dtype_name c) <$> bad_data)))
    end.
Proof.
  intros Hfew. pose proof (few_columns_are_distinct columns Hfew) as Hnodup.
  unfold extract_pandas_labels. rewrite bool_decide_eq_false_2 by lia.
  rewrite bad_columns_distinct; [|done|by apply Forall_forall].
  pose proof (filter_within
                (λ column, PANDAS_DTYPES !! dtype_name column = None) columns)
    as Hwithin.
  destruct (filter _ columns) as [|bad rest]; [done|].
  change (labels_of (bad :: rest))
    with (column_label bad :: labels_of rest).
  cbv beta iota. unfold res_bind at 1.
  change (column_label bad :: labels_of rest) with (labels_of (bad :: rest)).
  by rewrite (error_report_distinct
                (λ column name, "'" +:+ column +:+ "' type=" +:+ name)
                columns (bad :: rest) Hnodup Hwithin).
Qed.




End PandasFacts.

(** * Concrete runs *)

Section ConcreteRuns.
Import Example.

Local Abbreviation features := (Some (One x_tensor)).



Lemma conflicting_inputs_raise_ValueError_witness :
  conflicting_inputs (Some (ArrayData [])) None (Some (input_fn x_tensor)) None
  ∧ (∃ msg, @fit framework (estimator None) (Some (ArrayData [])) None
              (Some (input_fn x_tensor)) None None None None unfit
            = (inl (ValueError msg), unfit))
  ∧ (∃ msg, @evaluate framework (estimator None) (Some (ArrayData [])) None
              (Some (input_fn x_tensor)) None None None None None unfit
            = (inl (ValueError msg), unfit))
  ∧ (conflicting_inputs (Some (ArrayData [])) None
       (Some (input_fn x_tensor)) None →
     ∃ msg, @predict framework (estimator None) (Some (ArrayData []))
              (Some (input_fn x_tensor)) None None true unfit
            = (inl (ValueError msg), unfit)).
Proof.
  assert (conflicting_inputs (Some (ArrayData [])) None
            (Some (input_fn x_tensor)) None) as Hc.
  { left. split; [by eexists | left; by eexists]. }
  split; [exact Hc|].
  exact (@conflicting_inputs_raise_ValueError framework (estimator None)
           (Some (ArrayData [])) None (Some (input_fn x_tensor)) None None
           None None None None None None true unfit Hc).
Defined.

End ConcreteRuns.

Section ConcreteSignatureRuns.
Import Example.


End ConcreteSignatureRuns.

Section ConcreteModelRuns.
Import Example.

Local Abbreviation features := (Some (One x_tensor)).
Local Abbreviation identity := _identity_feature_engineering_fn.

Lemma required_outputs_by_mode_witness :
  model_fn_returns (Some empty_model_fn) None identity features None TRAIN
    (None, None, None)
  ∧ @_call_model_fn framework (Some empty_model_fn) None identity features
      None TRAIN
    = inl (ValueError "Missing train_op.").
Proof.
  assert (model_fn_returns (Some empty_model_fn) None identity features None
            TRAIN (None, None, None)) as Hret.
  { exists (features, None),
      {| call_features := features; call_targets := None;
         call_mode := None; call_params := None |},
      empty_model_fn.
    repeat split; reflexivity. }
  split; [exact Hret|].
  destruct (@required_outputs_by_mode framework (Some empty_model_fn) None
              identity features None TRAIN None None None Hret)
    as (Htrain & _).
  exact (Htrain eq_refl eq_refl).
Defined.

Lemma loss_is_reduced_to_a_scalar_witness :
  model_fn_returns (Some boxed_model_fn) None identity features None EVAL
    (None, Some (VTensor boxed_loss), Some (VOperation (GraphOp "train")))
  ∧ @convert_to_tensor framework (VTensor boxed_loss) = inr boxed_loss
  ∧ @validate_train_op framework EVAL (Some (VOperation (GraphOp "train")))
    = inr (Some (GraphOp "train"))
  ∧ @_call_model_fn framework (Some boxed_model_fn) None identity features
      None EVAL
    = inr (None, Some (reshape boxed_loss []), Some (GraphOp "train"))
  ∧ get_shape (reshape boxed_loss []) = scalar.
Proof.
  assert (model_fn_returns (Some boxed_model_fn) None identity features None
            EVAL (None, Some (VTensor boxed_loss),
                  Some (VOperation (GraphOp "train")))) as Hret.
  { exists (features, None),
      {| call_features := features; call_targets := None;
         call_mode := Some EVAL; call_params := None |},
      boxed_model_fn.
    repeat split; reflexivity. }
  split; [exact Hret|]. split; [reflexivity|]. split; [reflexivity|].
  destruct (@loss_is_reduced_to_a_scalar framework (Some boxed_model_fn) None
              identity features None EVAL None (VTensor boxed_loss)
              (Some (VOperation (GraphOp "train"))) boxed_loss Hret eq_refl)
    as (_ & Hpassed).
  destruct (Hpassed (Some (GraphOp "train")) eq_refl) as (_ & Hreshape & _).
  apply (Hreshape [Some 1%Z; Some 1%Z] None); [reflexivity | | reflexivity..].
  discriminate.
Defined.

(** C4: a model function that returns no predictions and a loss of three
    elements (and, as it may in INFER mode, no training_op).  In INFER mode
    the call is refused because of the loss, before the predictions are
    looked at: the error is not the one of the missing output. *)
Lemma vector_loss_hides_the_missing_predictions :
  model_fn_returns (Some vector_loss_model_fn) None identity features None
    INFER (None, Some (VTensor vector_loss), None)
  ∧ @_call_model_fn framework (Some vector_loss_model_fn) None identity
      features None INFER
    = inl (ValueError "Loss must be scalar: %s.")
  ∧ @_call_model_fn framework (Some vector_loss_model_fn) None identity
      features None INFER
    ≠ inl (ValueError "Missing predictions.").
Proof.
  split; [|split; [reflexivity | discriminate]].
  exists (features, None),
    {| call_features := features; call_targets := None;
       call_mode := None; call_params := None |},
    vector_loss_model_fn.
  repeat split; reflexivity.
Qed.

(** C5: the same model function in TRAIN mode.  Its loss has three
    elements, and the call is refused because of the missing training_op,
    before the loss is looked at: the error is not the one of the shape. *)
Lemma missing_train_op_hides_the_vector_loss :
  model_fn_returns (Some vector_loss_model_fn) None identity features None
    TRAIN (None, Some (VTensor vector_loss), None)
  ∧ num_elements (get_shape vector_loss) = Some 3%Z
  ∧ @_call_model_fn framework (Some vector_loss_model_fn) None identity
      features None TRAIN
    = inl (ValueError "Missing train_op.")
  ∧ @_call_model_fn framework (Some vector_loss_model_fn) None identity
      features None TRAIN
    ≠ inl (ValueError "Loss must be scalar: %s.").
Proof.
  split; [|split; [reflexivity | split; [reflexivity | discriminate]]].
  exists (features, None),
    {| call_features := features; call_targets := None;
       call_mode := None; call_params := None |},
    vector_loss_model_fn.
  repeat split; reflexivity.
Qed.

(** C6: a model function declared with the three arguments (features,
    targets, params) is called with features and targets alone, mode is
    not passed; and a bound method, which declares the four arguments
    (self, features, targets, mode), is passed mode and no params. *)
Lemma three_arguments_are_called_without_mode :
  length <$> _get_arguments (model_fn_callable params_only_model_fn) = Some 3
  ∧ model_fn_call (Some params_only_model_fn) (Some ∅) features None TRAIN
    = inr {| call_features := features; call_targets := None;
             call_mode := None; call_params := None |}
  ∧ @_call_model_fn framework (Some params_only_model_fn) (Some ∅) identity
      features None TRAIN
    = inl (TypeError "model_fn() takes exactly 3 arguments (2 given)")
  ∧ length <$> _get_arguments (model_fn_callable method_model_fn) = Some 4
  ∧ model_fn_call (Some method_model_fn) None features None TRAIN
    = inr {| call_features := features; call_targets := None;
             call_mode := Some TRAIN; call_params := None |}.
Proof. repeat split; reflexivity. Qed.

Lemma model_fn_is_called_by_argument_names_witness :
  Some boxed_model_fn = Some boxed_model_fn
  ∧ _get_arguments (model_fn_callable boxed_model_fn)
    = Some ["features"; "targets"; "mode"]
  ∧ identity features None = inr (features, None)
  ∧ @_call_model_fn framework (Some boxed_model_fn) None identity features
      None EVAL
    = res_bind
        (model_fn_run boxed_model_fn
           {| call_features := features; call_targets := None;
              call_mode := Some EVAL; call_params := None |})
        (@validate_outputs framework EVAL).
Proof.
  split; [reflexivity|]. split; [reflexivity|]. split; [reflexivity|].
  destruct (@model_fn_is_called_by_argument_names framework
              (Some boxed_model_fn) None identity boxed_model_fn
              ["features"; "targets"; "mode"] features None EVAL
              (features, None) eq_refl eq_refl eq_refl)
    as (_ & _ & _ & _ & Hthree & _).
  exact (Hthree eq_refl).
Defined.

(** C7: a prediction named 'loss' gets no streaming mean although the
    user's metrics result has no entry 'loss': the key holds the streaming
    mean of the loss. *)
Lemma prediction_named_loss_gets_no_streaming_mean :
  _make_metrics_ops None features None
    (Some (Dict {[ "loss" := prediction_tensor ]})) = inr ∅
  ∧ (@Estimator_get_eval_ops framework (Some loss_named_model_fn) None
       identity features None None unfit).1
    = inr {[ NameStr "loss" := @streaming_mean framework (Some loss_tensor) ]}
  ∧ @streaming_mean framework (Some loss_tensor)
    ≠ @streaming_mean framework (Some prediction_tensor).
Proof. repeat split; [reflexivity..|discriminate]. Qed.

Lemma eval_ops_add_streaming_means_witness :
  @_call_model_fn framework (Some model_fn) None identity features None EVAL
  = inr (Some (One prediction_tensor), Some loss_tensor,
         Some (GraphOp "train"))
  ∧ _make_metrics_ops None features None
      (Some (One prediction_tensor)) = inr ∅
  ∧ ∃ result,
      @Estimator_get_eval_ops framework (Some model_fn) None identity
        features None None unfit = (inr result, unfit)
      ∧ result !! NameStr "loss"
        = Some (@streaming_mean framework (Some loss_tensor))
      ∧ result !! NameStr "predictions"
        = Some (@streaming_mean framework (Some prediction_tensor)).
Proof.
  split; [reflexivity|]. split; [reflexivity|].
  destruct (@eval_ops_add_streaming_means framework (Some model_fn) None
              identity features None None (Some (One prediction_tensor))
              (Some loss_tensor) (Some (GraphOp "train")) ∅ unfit
              eq_refl eq_refl)
    as (result & Hrun & _ & _ & Hloss & _ & Hpred & _).
  exists result. split; [exact Hrun|]. split.
  - apply Hloss. reflexivity.
  - apply (Hpred prediction_tensor); reflexivity.
Defined.

Lemma exhausted_input_ends_the_sequence_witness :
  (∀ j, j < 2 →
     ∃ output_batch,
       @run_feeds_iter framework outputs (feed_dicts None) "/m/model.ckpt"
         (0 + j) = Yield output_batch
       ∧ (unpack_batch false output_batch).2 = None)
  ∧ @input_exhausted_at framework "/m/model.ckpt" outputs None (0 + 2)
  ∧ 2 < 3
  ∧ @_infer_model_as_iterable framework 3 "/m/model.ckpt" outputs None false 0
    = ([PredictionRow [1%Z]; PredictionRow [2%Z]; PredictionRow [3%Z]],
       Returned).
Proof.
  assert (∀ j, j < 2 →
            ∃ output_batch,
              @run_feeds_iter framework outputs (feed_dicts None)
                "/m/model.ckpt" (0 + j) = Yield output_batch
              ∧ (unpack_batch false output_batch).2 = None) as Hbatches.
  { intros [|[|j]] Hj; [eexists; split; reflexivity..|lia]. }
  assert (@input_exhausted_at framework "/m/model.ckpt" outputs None (0 + 2))
    as Hend.
  { right. right. exists None. split; reflexivity. }
  assert (2 < 3) as Hfuel by lia.
  split; [exact Hbatches|]. split; [exact Hend|]. split; [exact Hfuel|].
  destruct (@exhausted_input_ends_the_sequence framework "/m/model.ckpt"
              outputs None false 2 3 0 Hbatches Hend Hfuel) as [Hrun _].
  rewrite Hrun. reflexivity.
Defined.


End ConcreteModelRuns.


(** * Further properties of the two files *)

Section PandasLabelFacts.
Import pandas_io.

(** X1. [extract_pandas_labels] gives back unchanged whatever is not a data
    frame; a frame with more than one column is refused with 'Only one
    column for labels is allowed.' whatever its dtypes; a frame with at most
    one column gives its values, not cast, when its dtype is listed, and
    raises otherwise.  It raises nothing but ValueError. *)
Theorem extract_pandas_labels_takes_one_listed_column labels :
  match labels with
  | DataFrame columns =>
      (1 < length columns →
       extract_pandas_labels labels
       = inl (ValueError "Only one column for labels is allowed."))
      ∧ (length columns ≤ 1 →
         Forall (λ column, dtype_name column ∈ listed_dtypes) columns →
         extract_pandas_labels labels = inr (NdArray (values columns)))
      ∧ ((∃ e, extract_pandas_labels labels = inl e)
         ↔ 1 < length columns
           ∨ Exists (λ column, dtype_name column ∉ listed_dtypes) columns)
      ∧ (∀ e, extract_pandas_labels labels = inl e → ∃ msg, e = ValueError msg)
  | _ => extract_pandas_labels labels = inr labels
  end.
Proof.
  destruct labels as [columns| |]; [|done..].
  destruct (decide (1 < length columns)) as [Hmany|Hfew].
  - unfold extract_pandas_labels. rewrite bool_decide_eq_true_2 by done.
    split; [done|]. split; [lia|]. split; [|by intros e [= <-]; eexists].
    split; [by left | by eexists].
  - rewrite (extract_pandas_labels_few columns) by lia.
    split; [done|].
    destruct (filter _ columns) as [|bad rest] eqn:Hfilter.
    + apply bad_data_nil in Hfilter. split; [done|]. split; [|by intros e [=]].
      split; [by intros [e [=]]|]. intros [?|Hex]; [done|].
      apply Exists_exists in Hex as (c & Hin & Hnot).
      rewrite Forall_forall in Hfilter. by apply Hfilter in Hin.
    + split; [|split].
      * intros _ Hall. apply bad_data_nil in Hall. congruence.
      * split; [|by eexists]. intros _. right. by eapply bad_data_cons.
      * intros e [= <-]. by eexists.
Qed.

(** X2. On a frame with at most one column the two extractors agree: the
    label extractor raises exactly when the data extractor does, and when
    they succeed the data extractor gives the float cast of the array the
    label extractor and [extract_pandas_matrix] give. *)
Theorem extractors_agree_on_one_column columns :
  length columns ≤ 1 →
  ((∃ e, extract_pandas_labels (DataFrame columns) = inl e)
   ↔ (∃ e, extract_pandas_data (DataFrame columns) = inl e))
  ∧ (∀ a, extract_pandas_labels (DataFrame columns) = inr (NdArray a) →
          extract_pandas_matrix (DataFrame columns) = inr (NdArray a)
          ∧ extract_pandas_data (DataFrame columns)
            = inr (NdArray (astype "float" a))).
Proof.
  intros Hfew. rewrite (extract_pandas_labels_few columns Hfew).
  rewrite (extract_pandas_data_distinct columns)
    by (by apply few_columns_are_distinct).
  unfold extract_pandas_matrix.
  destruct (filter _ columns) as [|bad rest].
  - split; [split; by intros [e [=]]|]. by intros a [= <-].
  - split; [split; intros _; by eexists|]. by intros a [=].
Qed.
End PandasLabelFacts.

Section InputAdapterMore.
Context `{Framework}.

(** X3. The input adapter accepts exactly two forms: an input function with
    no x, y or batch_size, which it hands back as it is together with the
    feed function; or an x that is no tensor, with a y that is none either,
    no feed function and no input function, for which it hands back the
    input builder and feed function of the data feeder.  Every exception it
    raises itself is a ValueError. *)
Theorem _get_input_fn_accepts_two_forms x y input_fn feed_fn batch_size
    shuffle epochs :
  (∀ r,
     _get_input_fn x y input_fn feed_fn batch_size shuffle epochs = inr r
     ↔ (input_fn = Some r.1 ∧ x = None ∧ y = None ∧ batch_size = None
        ∧ r.2 = feed_fn)
       ∨ (input_fn = None ∧ feed_fn = None
          ∧ ∃ xv df,
              x = Some xv ∧ is_tensor xv = false
              ∧ (∀ yv, y = Some yv → is_tensor yv = false)
              ∧ setup_train_data_feeder xv y batch_size shuffle epochs = inr df
              ∧ r = (input_builder df, Some (get_feed_dict_fn df))))
  ∧ (∀ e,
       _get_input_fn x y input_fn feed_fn batch_size shuffle epochs = inl e →
       (∃ msg, e = ValueError msg)
       ∨ (∃ xv, x = Some xv
                ∧ setup_train_data_feeder xv y batch_size shuffle epochs
                  = inl e)).
Proof.
  unfold _get_input_fn. split.
  - intros [fn ffn]. destruct input_fn as [g|]; simpl.
    + destruct x as [xv|]; simpl;
        [split; [done | intros [(_ & ? & _) | (? & _)]; done]|].
      destruct y as [yv|]; simpl;
        [split; [done | intros [(_ & _ & ? & _) | (? & _)]; done]|].
      destruct batch_size as [b|]; simpl;
        [split; [done | intros [(_ & _ & _ & ? & _) | (? & _)]; done]|].
      split.
      * intros [= <- <-]. by left.
      * intros [(Hg & _ & _ & _ & Hf) | (? & _)]; [|done].
        simpl in *. by simplify_eq.
    + destruct x as [xv|]; [|split; [done | intros [(? & _) | (_ & _ & ? & ? & ? & _)]; done]].
      destruct (is_tensor xv) eqn:Hx; simpl.
      { split; [done|]. intros [(? & _) | (_ & _ & xv' & df & ? & ? & _)];
          [done|]. congruence. }
      destruct (match y with Some yv => is_tensor yv | None => false end)
        eqn:Hy; simpl.
      { split; [done|]. intros [(? & _) | (_ & _ & xv' & df & ? & ? & Hyv & _)];
          [done|]. destruct y as [yv|]; [|done].
        rewrite (Hyv yv eq_refl) in Hy. done. }
      destruct feed_fn as [f|]; simpl.
      { split; [done|]. intros [(? & _) | (_ & ? & _)]; done. }
      destruct (setup_train_data_feeder xv y batch_size shuffle epochs)
        as [e|df] eqn:Hdf; simpl.
      { split; [done|]. intros [(? & _) | (_ & _ & xv' & df & ? & ? & _ & ? & _)];
          [done|]. congruence. }
      split.
      * intros [= <- <-]. right. split; [done|]. split; [done|].
        exists xv, df. repeat split; try done.
        intros yv ->. done.
      * intros [(? & _) | (_ & _ & xv' & df' & ? & ? & _ & ? & ?)]; [done|].
        congruence.
  - intros e. destruct input_fn as [g|]; simpl.
    + destruct (_ || _); [intros [= <-]; left; by eexists|].
      destruct (bool_decide _); [intros [= <-]; left; by eexists|done].
    + destruct x as [xv|]; [|intros [= <-]; left; by eexists].
      destruct (_ || _); [intros [= <-]; left; by eexists|].
      destruct (bool_decide _); [intros [= <-]; left; by eexists|].
      destruct (setup_train_data_feeder xv y batch_size shuffle epochs)
        as [e'|df] eqn:Hdf; simpl; [|done].
      intros [= <-]. right. by exists xv.
Qed.

(** X4. On an estimator that has stored no signature yet the signature
    check never raises: it stores the signature of the features, and of the
    targets unless they are None, and touches nothing else. *)
Theorem first_check_stores_signatures features targets s :
  _features_info s = None →
  _targets_info s = None →
  _check_inputs features targets s
  = (inr tt,
     {| _features_info := create_signatures features;
        _targets_info :=
          match targets with
          | Some _ => create_signatures targets
          | None => None
          end;
        _graph := _graph s; checkpoints := checkpoints s;
        events := events s |}).
Proof.
  intros Hf Ht. unfold _check_inputs.
  erewrite bind_ok by reflexivity. rewrite Hf.
  erewrite bind_ok by reflexivity.
  destruct targets as [t|]; simpl.
  - erewrite bind_ok by reflexivity. simpl. rewrite Ht. reflexivity.
  - by rewrite Ht.
Qed.
End InputAdapterMore.

Section TrainingFacts.
Context `{Framework}.
Variable self : BaseEstimator.

Lemma steps_not_both (steps max_steps : option Z) :
  ¬ (is_Some steps ∧ is_Some max_steps) →
  bool_decide (is_Some steps) && bool_decide (is_Some max_steps) = false.
Proof.
  intros Hsteps. apply andb_false_iff.
  destruct (decide (is_Some steps)); [|left; by apply bool_decide_eq_false_2].
  destruct (decide (is_Some max_steps)); [tauto|].
  right; by apply bool_decide_eq_false_2.
Qed.

Lemma _train_model_disabled input_fn steps feed_fn monitors max_steps mode s :
  execution_mode (_config self) = Some mode →
  mode ∉ ["all"; "train"] →
  _train_model self input_fn steps feed_fn monitors max_steps s
  = (inr None, s).
Proof.
  intros Hmode Hnot. unfold _train_model. rewrite Hmode.
  by rewrite bool_decide_eq_false_2.
Qed.

(** X5. When the configuration has an execution mode other than 'all' and
    'train', fit and partial_fit with well-formed arguments do nothing: no
    sleep, no graph, no call of the input function, and the estimator is
    left as it was. *)
Theorem fit_does_nothing_when_training_is_disabled
    x y input_fn steps batch_size monitors max_steps mode fns s :
  execution_mode (_config self) = Some mode →
  mode ∉ ["all"; "train"] →
  ¬ (is_Some steps ∧ is_Some max_steps) →
  _get_input_fn x y input_fn None batch_size true None = inr fns →
  fit self x y input_fn steps batch_size monitors max_steps s = (inr tt, s)
  ∧ partial_fit self x y input_fn steps batch_size monitors s = (inr tt, s).
Proof.
  intros Hmode Hnot Hsteps Hfns.
  assert (∀ max_steps',
            ¬ (is_Some steps ∧ is_Some max_steps') →
            fit self x y input_fn steps batch_size monitors max_steps' s
            = (inr tt, s)) as Hfit.
  { intros max_steps' Hs. unfold fit. rewrite steps_not_both by done.
    rewrite (bind_lift_ok _ _ fns) by done.
    erewrite bind_ok by (by eapply _train_model_disabled). reflexivity. }
  split; [by apply Hfit|].
  unfold partial_fit. apply Hfit. by intros [_ [? [=]]].
Qed.

Lemma _train_model_reaches_loop input_fn steps feed_fn monitors max_steps
    features targets ops s s2 s3 :
  training_enabled (_config self) →
  input_fn = inr (InputPair features targets) →
  _check_inputs features targets (train_start (_config self) s) = (inr tt, s2) →
  _get_train_ops self features targets s2 = (inr ops, s3) →
  let r := _monitored_train
             (train_request self steps max_steps feed_fn monitors ops)
             (checkpoints s3) in
  _train_model self input_fn steps feed_fn monitors max_steps s
  = (match r.1 with inl e => inl e | inr loss => inr (Some loss) end,
     with_checkpoints r.2 s3).
Proof.
  intros Hen -> Hcheck Hops r. subst r.
  unfold _train_model, training_enabled in *. cbv zeta.
  match goal with
  | |- context [bind new_graph ?k] => set (train := bind new_graph k)
  end.
  assert (∀ s0,
            _check_inputs features targets
              {| _features_info := _features_info s0;
                 _targets_info := _targets_info s0;
                 _graph := Some (graphs_built s0);
                 checkpoints := checkpoints s0;
                 events := NewGraph :: events s0 |} = (inr tt, s2) →
            train s0
            = (match (_monitored_train
                        (train_request self steps max_steps feed_fn monitors ops)
                        (checkpoints s3)).1 with
               | inl e => inl e
               | inr loss => inr (Some loss)
               end,
               with_checkpoints
                 (_monitored_train
                    (train_request self steps max_steps feed_fn monitors ops)
                    (checkpoints s3)).2 s3)) as Htrain.
  { intros s0 Hc. subst train.
    erewrite bind_ok by apply new_graph_run.
    erewrite bind_ok by reflexivity.
    erewrite bind_ok by reflexivity. simpl.
    erewrite bind_ok by exact Hc.
    erewrite bind_ok by exact Hops.
    erewrite bind_ok by reflexivity.
    erewrite bind_ok by reflexivity.
    unfold train_request, monitor_hooks.
    destruct (_monitored_train _ (checkpoints s3)) as [[e|loss] c];
      reflexivity. }
  unfold train_start, startup_sleep in Hcheck.
  destruct (execution_mode (_config self)) as [mode|]; [|by apply Htrain].
  rewrite bool_decide_eq_true_2 by done.
  destruct (bool_decide _).
  - erewrite bind_ok by reflexivity. by apply Htrain.
  - erewrite bind_ok by reflexivity. by apply Htrain.
Qed.

(** X6. A call of fit that passes its gates and the signature check hands
    the training loop what the estimator's train method returned for the
    features and targets of the input function, together with the model
    directory, the feed function, the step limits and the hooks of the
    monitors; its outcome is the loop's, and the checkpoint store is what
    the loop leaves. *)
Theorem fit_hands_the_model_to_the_training_loop
    x y input_fn steps batch_size monitors max_steps fns features targets ops
    s s2 s3 :
  training_enabled (_config self) →
  stagger_is_a_duration (_config self) →
  ¬ (is_Some steps ∧ is_Some max_steps) →
  _get_input_fn x y input_fn None batch_size true None = inr fns →
  fns.1 = inr (InputPair features targets) →
  _check_inputs features targets (train_start (_config self) s) = (inr tt, s2) →
  _get_train_ops self features targets s2 = (inr ops, s3) →
  let r := _monitored_train
             (train_request self steps max_steps fns.2 monitors ops)
             (checkpoints s3) in
  fit self x y input_fn steps batch_size monitors max_steps s
  = (match r.1 with inl e => inl e | inr _ => inr tt end,
     with_checkpoints r.2 s3).
Proof.
  intros Hen _ Hsteps Hfns Hin Hcheck Hops r.
  pose proof (_train_model_reaches_loop fns.1 steps fns.2 monitors max_steps
                features targets ops s s2 s3 Hen Hin Hcheck Hops) as Htm.
  simpl in Htm. unfold fit. rewrite steps_not_both by done.
  rewrite (bind_lift_ok _ _ fns) by done.
  subst r. destruct (_monitored_train _ (checkpoints s3)) as [[e|loss] c];
    simpl in *.
  - by erewrite bind_raise by exact Htm.
  - by erewrite bind_ok by exact Htm.
Qed.
End TrainingFacts.

Section MonitorFacts.

(** X7. Of the monitors given to fit, the session hooks all reach the
    training loop as they are; the others reach it inside one adapter, all
    of them on the chief and only those that run on all workers elsewhere;
    no adapter is made for an empty list, and there is never more than
    one. *)
Theorem monitor_hooks_split_the_monitors chief monitors :
  let hooks := monitor_hooks chief (Some monitors) in
  (∀ m, SessionRunHook m ∈ hooks
        ↔ m ∈ monitors ∧ is_session_run_hook m = true)
  ∧ (∀ m, (∃ ms, RunHookAdapterForMonitors ms ∈ hooks ∧ m ∈ ms)
          ↔ m ∈ monitors ∧ is_session_run_hook m = false
            ∧ (chief = true ∨ run_on_all_workers m = true))
  ∧ (RunHookAdapterForMonitors [] ∉ hooks)
  ∧ (∀ ms ms', RunHookAdapterForMonitors ms ∈ hooks →
               RunHookAdapterForMonitors ms' ∈ hooks → ms = ms')
  ∧ monitor_hooks chief None = [].
Proof.
  unfold monitor_hooks. simpl.
  set (sessions := SessionRunHook <$> filter _ monitors).
  set (deprecated := if chief then _ else _).
  assert (∀ m, m ∈ deprecated
               ↔ m ∈ monitors ∧ is_session_run_hook m = false
                 ∧ (chief = true ∨ run_on_all_workers m = true)) as Hdep.
  { intros m. subst deprecated. destruct chief.
    - rewrite list_elem_of_filter. split; [tauto|].
      intros (? & ? & _). tauto.
    - rewrite !list_elem_of_filter. split; [tauto|].
      intros (? & ? & [[=]|?]). tauto. }
  assert (∀ ms, RunHookAdapterForMonitors ms ∉ sessions) as Hnot.
  { intros ms Hin. subst sessions.
    apply list_elem_of_fmap in Hin as (m & [=] & _). }
  assert (∀ m, SessionRunHook m ∈ sessions
               ↔ m ∈ monitors ∧ is_session_run_hook m = true) as Hses.
  { intros m. subst sessions. rewrite list_elem_of_fmap. split.
    - intros (m' & [= <-] & Hin). apply list_elem_of_filter in Hin. tauto.
    - intros [Hin Hhook]. exists m. split; [done|].
      by apply list_elem_of_filter. }
  clearbody sessions deprecated.
  destruct deprecated as [|d deprecated].
  - split; [exact Hses|]. split.
    { intros m. rewrite <- Hdep. split; [|by intros ?%elem_of_nil].
      intros (ms & Hin & _). by apply Hnot in Hin. }
    split; [apply Hnot|]. split; [|by destruct chief].
    intros ms ms' Hin. by apply Hnot in Hin.
  - split.
    { intros m. rewrite <- Hses, elem_of_app, list_elem_of_singleton.
      split; [intros [?|[=]]; done | by left]. }
    split.
    { intros m. rewrite <- Hdep. split.
      - intros (ms & Hin & Hm).
        apply elem_of_app in Hin as [Hin|Hin]; [by apply Hnot in Hin|].
        apply list_elem_of_singleton in Hin. by simplify_eq.
      - intros Hm. exists (d :: deprecated). split; [|done].
        apply elem_of_app. right. by apply list_elem_of_singleton. }
    split.
    { intros Hin. apply elem_of_app in Hin as [Hin|Hin];
        [by apply Hnot in Hin|].
      by apply list_elem_of_singleton in Hin. }
    split; [|by destruct chief].
    intros ms ms' Hin Hin'.
    apply elem_of_app in Hin as [Hin|Hin]; [by apply Hnot in Hin|].
    apply elem_of_app in Hin' as [Hin'|Hin']; [by apply Hnot in Hin'|].
    apply list_elem_of_singleton in Hin, Hin'. congruence.
Qed.
End MonitorFacts.

Section StateFacts.
Context `{Framework}.

Lemma keeps_checkpoints_bind {A B} (m : M A) (k : A → M B) :
  keeps_checkpoints m → (∀ a, keeps_checkpoints (k a)) →
  keeps_checkpoints (bind m k).
Proof.
  intros Hm Hk s. unfold bind. specialize (Hm s).
  destruct (m s) as [[e|a] s']; simpl in *; [done|].
  by rewrite Hk.
Qed.

Lemma keeps_signatures_bind {A B} (m : M A) (k : A → M B) :
  keeps_signatures m → (∀ a, keeps_signatures (k a)) →
  keeps_signatures (bind m k).
Proof.
  intros Hm Hk s. unfold bind. specialize (Hm s).
  destruct (m s) as [[e|a] s']; simpl in *; [done|].
  destruct (Hk a s') as [-> ->]. done.
Qed.

Lemma keeps_state_checkpoints {A} (m : M A) :
  keeps_state m → keeps_checkpoints m.
Proof. intros Hm s. by rewrite Hm. Qed.

Lemma keeps_state_signatures {A} (m : M A) :
  keeps_state m → keeps_signatures m.
Proof. intros Hm s. by rewrite Hm. Qed.

Lemma keeps_state_lift {A} (r : Res A) : keeps_state (lift r).
Proof. done. Qed.

Lemma keeps_state_ret {A} (a : A) : keeps_state (ret a).
Proof. done. Qed.

Lemma keeps_state_raise {A} (e : exn) : keeps_state (raise (A:=A) e).
Proof. done. Qed.

Lemma _check_inputs_keeps_the_world features targets s :
  checkpoints (_check_inputs features targets s).2 = checkpoints s
  ∧ events (_check_inputs features targets s).2 = events s
  ∧ _graph (_check_inputs features targets s).2 = _graph s.
Proof.
  unfold _check_inputs. erewrite bind_ok by reflexivity.
  destruct (_features_info s) as [finfo|].
  - destruct (tensors_compatible features finfo).
    + erewrite bind_ok by reflexivity.
      destruct targets as [t|]; [|done].
      erewrite bind_ok by reflexivity.
      destruct (_targets_info s) as [tinfo|]; [|done].
      by destruct (tensors_compatible (Some t) tinfo).
    + by erewrite bind_raise by reflexivity.
  - erewrite bind_ok by reflexivity.
    destruct targets as [t|]; [|done].
    erewrite bind_ok by reflexivity. simpl.
    destruct (_targets_info s) as [tinfo|]; [|done].
    by destruct (tensors_compatible (Some t) tinfo).
Qed.

Lemma events_foldr_with_event l s :
  events (foldr with_event s l) = l ++ events s.
Proof. induction l as [|e l IH]; simpl; by rewrite ?IH. Qed.

End StateFacts.

Section ReadOnlyFacts.
Context `{Framework}.
Variable self : BaseEstimator.

Lemma log_event_keeps e :
  keeps_checkpoints (log_event e) ∧ keeps_signatures (log_event e).
Proof. by split. Qed.

Lemma latest_checkpoint_keeps dir :
  keeps_checkpoints (latest_checkpoint dir)
  ∧ keeps_signatures (latest_checkpoint dir).
Proof. by split. Qed.

Lemma new_graph_keeps :
  keeps_checkpoints new_graph ∧ keeps_signatures new_graph.
Proof. by split. Qed.

Lemma _check_inputs_keeps_checkpoints features targets :
  keeps_checkpoints (_check_inputs features targets).
Proof. intros s. apply _check_inputs_keeps_the_world. Qed.

Ltac keeps_checkpoints_steps :=
  repeat first
    [ apply latest_checkpoint_keeps
    | apply new_graph_keeps
    | apply _check_inputs_keeps_checkpoints
    | apply keeps_state_checkpoints, keeps_state_lift
    | apply keeps_state_checkpoints, keeps_state_ret
    | apply keeps_state_checkpoints, keeps_state_raise
    | apply keeps_checkpoints_bind
    | progress intros
    | case_match ].

Ltac keeps_signatures_steps :=
  repeat first
    [ apply latest_checkpoint_keeps
    | apply new_graph_keeps
    | apply keeps_state_signatures, keeps_state_lift
    | apply keeps_state_signatures, keeps_state_ret
    | apply keeps_state_signatures, keeps_state_raise
    | apply keeps_signatures_bind
    | progress intros
    | case_match ].

(** X9. With eval and predict methods that only read the estimator (as
    those of [Estimator] do), evaluate and predict never write the
    checkpoint store, whatever their outcome, and predict never stores or
    changes a signature. *)
Theorem evaluate_and_predict_only_read
    x y input_fn feed_fn batch_size steps metrics name outputs as_iterable :
  (∀ features targets metrics',
     keeps_state (_get_eval_ops self features targets metrics')) →
  (∀ features, keeps_state (_get_predict_ops self features)) →
  keeps_checkpoints
    (evaluate self x y input_fn feed_fn batch_size steps metrics name)
  ∧ keeps_checkpoints (predict self x input_fn batch_size outputs as_iterable)
  ∧ keeps_signatures (predict self x input_fn batch_size outputs as_iterable).
Proof.
  intros Heval Hpredict. split; [|split].
  - unfold evaluate, _evaluate_model. keeps_checkpoints_steps.
    all: by apply keeps_state_checkpoints.
  - unfold predict, _infer_model. keeps_checkpoints_steps.
    all: by apply keeps_state_checkpoints.
  - unfold predict, _infer_model. keeps_signatures_steps.
    all: by apply keeps_state_signatures.
Qed.

Lemma fit_state x y input_fn steps batch_size monitors max_steps fns s :
  ¬ (is_Some steps ∧ is_Some max_steps) →
  _get_input_fn x y input_fn None batch_size true None = inr fns →
  (fit self x y input_fn steps batch_size monitors max_steps s).2
  = (_train_model self fns.1 steps fns.2 monitors max_steps s).2.
Proof.
  intros Hsteps Hfns. unfold fit. rewrite steps_not_both by done.
  rewrite (bind_lift_ok _ _ fns) by done. unfold bind.
  by destruct (_train_model _ _ _ _ _ _ s) as [[e|r] s'].
Qed.

Lemma graphs_built_after_sleep cfg s :
  graphs_built (foldr with_event s (startup_sleep cfg)) = graphs_built s.
Proof.
  unfold startup_sleep. destruct (execution_mode cfg); [|done].
  by destruct (bool_decide _).
Qed.

(** X10. With a train method that only reads the estimator, every call of
    fit that gets past its arguments and its execution mode builds exactly
    one graph, which it stores, whatever happens afterwards; before that it
    sleeps at most once, for the stagger of its task capped by the
    configured maximum, and it does not sleep at all when that is zero or
    the configuration has no execution mode. *)
Theorem fit_builds_one_graph_after_a_capped_sleep
    x y input_fn steps batch_size monitors max_steps fns s :
  (∀ features targets, keeps_state (_get_train_ops self features targets)) →
  training_enabled (_config self) →
  stagger_is_a_duration (_config self) →
  ¬ (is_Some steps ∧ is_Some max_steps) →
  _get_input_fn x y input_fn None batch_size true None = inr fns →
  let s' := (fit self x y input_fn steps batch_size monitors max_steps s).2 in
  events s' = NewGraph :: startup_sleep (_config self) ++ events s
  ∧ _graph s' = Some (graphs_built s)
  ∧ graphs_built s' = S (graphs_built s)
  ∧ (∀ secs, Sleep secs ∈ startup_sleep (_config self) →
             (0 < secs ≤ training_worker_max_startup_secs (_config self))%Z)
  ∧ (execution_mode (_config self) = None → startup_sleep (_config self) = []).
Proof.
  intros Hpure Hen [Hmax Hstagger] Hsteps Hfns s'.
  assert (events s' = NewGraph :: startup_sleep (_config self) ++ events s
          ∧ _graph s' = Some (graphs_built s)) as [Hev Hg].
  { subst s'. rewrite (fit_state _ _ _ _ _ _ _ fns) by done.
    rewrite <- (graphs_built_after_sleep (_config self) s).
    rewrite <- events_foldr_with_event.
    unfold _train_model, training_enabled, startup_sleep in *. cbv zeta.
    match goal with
    | |- context [bind new_graph ?k] => set (train := bind new_graph k)
    end.
    assert (∀ s0, events (train s0).2 = NewGraph :: events s0
                  ∧ _graph (train s0).2 = Some (graphs_built s0)) as Htrain.
    { intros s0. subst train.
      erewrite bind_ok by apply new_graph_run.
      erewrite bind_ok by reflexivity.
      destruct (unpack_input fns.1) as [e|ft] eqn:Hin.
      { by rewrite (bind_lift_raise _ _ e). }
      rewrite (bind_lift_ok _ _ ft) by done.
      match goal with
      | |- context [bind (_check_inputs ?f ?t) ?k ?s1] =>
          pose proof (_check_inputs_keeps_the_world f t s1) as (_ & Hev & Hg);
          destruct (_check_inputs f t s1) as [[e|[]] s2] eqn:Hcheck
      end; simpl in Hev, Hg.
      { erewrite bind_raise by exact Hcheck. by simpl. }
      erewrite bind_ok by exact Hcheck.
      pose proof (Hpure ft.1 ft.2 s2) as Hs3.
      destruct (_get_train_ops self ft.1 ft.2 s2) as [[e|ops] s3] eqn:Hops;
        simpl in Hs3; subst s3.
      { erewrite bind_raise by exact Hops. by simpl. }
      erewrite bind_ok by exact Hops.
      erewrite bind_ok by reflexivity.
      erewrite bind_ok by reflexivity.
      destruct (_monitored_train _ (checkpoints s2)) as [[e|loss] c];
        by simpl. }
    destruct (execution_mode (_config self)) as [mode|]; [|apply Htrain].
    rewrite bool_decide_eq_true_2 by done.
    destruct (bool_decide _).
    - erewrite bind_ok by reflexivity. apply Htrain.
    - erewrite bind_ok by reflexivity. apply Htrain. }
  split; [done|]. split; [done|]. split; [|split].
  - unfold graphs_built at 1. rewrite Hev.
    rewrite filter_cons_True by done. simpl. f_equal.
    rewrite <- events_foldr_with_event.
    apply graphs_built_after_sleep.
  - unfold startup_sleep. destruct (execution_mode (_config self));
      [|by intros secs ?%elem_of_nil].
    case_bool_decide as Hzero; [by intros secs ?%elem_of_nil|].
    intros secs [= ->]%list_elem_of_singleton. lia.
  - unfold startup_sleep. by intros ->.
Qed.
End ReadOnlyFacts.

Section ModelFunctionResults.
Context `{Framework}.

Lemma validate_train_op_TRAIN train_op op :
  validate_train_op TRAIN train_op = inr op → is_Some op.
Proof.
  unfold validate_train_op, res_bind.
  repeat case_match; intros; simplify_eq; by eexists.
Qed.

Lemma validate_loss_result mode loss r :
  validate_loss mode loss = inr r →
  (mode ≠ INFER → is_Some r)
  ∧ (∀ t, r = Some t →
          is_compatible_with (get_shape t) scalar = true
          ∧ (num_elements (get_shape t) = None
             ∨ num_elements (get_shape t) = Some 1%Z)).
Proof.
  unfold validate_loss, res_bind.
  destruct loss as [v|].
  - destruct (convert_to_tensor v) as [e|t]; [done|].
    destruct (num_elements (get_shape t)) as [n|] eqn:Hn.
    + case_bool_decide as Hone; simpl; [|done]. subst n.
      destruct (is_compatible_with (get_shape t) scalar) eqn:Hc; simpl;
        intros [= <-]; (split; [by eexists|]); intros t' [= <-].
      * split; [done | by right].
      * split; [done | by right].
    + simpl.
      destruct (is_compatible_with (get_shape t) scalar) eqn:Hc; simpl;
        intros [= <-]; (split; [by eexists|]); intros t' [= <-].
      * split; [done | by left].
      * split; [done | by right].
  - destruct mode; [done..|]. intros [= <-]. split; [done|]. by intros t [=].
Qed.

Lemma validate_predictions_INFER predictions r :
  validate_predictions INFER predictions = inr r → is_Some r.
Proof.
  unfold validate_predictions, res_bind.
  repeat case_match; intros; simplify_eq; by eexists.
Qed.

Lemma _call_model_fn_validated model_fn params fe features targets mode r :
  _call_model_fn model_fn params fe features targets mode = inr r →
  ∃ out, validate_outputs mode out = inr r.
Proof.
  unfold _call_model_fn, res_bind. repeat case_match; try done.
  intros Hr. by eexists.
Qed.

(** X11. Whatever [_call_model_fn] returns has the outputs its mode needs:
    a training op and a loss in TRAIN mode, a loss in EVAL mode, predictions
    in INFER mode.  And a loss it returns, in any mode, has a shape that is
    compatible with a scalar and holds one element or an unknown number. *)
Theorem _call_model_fn_returns_what_the_mode_needs model_fn params fe
    features targets mode predictions loss train_op :
  _call_model_fn model_fn params fe features targets mode
  = inr (predictions, loss, train_op) →
  (mode = TRAIN → is_Some train_op ∧ is_Some loss)
  ∧ (mode = EVAL → is_Some loss)
  ∧ (mode = INFER → is_Some predictions)
  ∧ (∀ t, loss = Some t →
          is_compatible_with (get_shape t) scalar = true
          ∧ (num_elements (get_shape t) = None
             ∨ num_elements (get_shape t) = Some 1%Z)).
Proof.
  intros Hcall. apply _call_model_fn_validated in Hcall as [out Hout].
  unfold validate_outputs, res_bind in Hout.
  destruct (validate_train_op mode out.2) as [e|op] eqn:Hop; [done|].
  destruct (validate_loss mode out.1.2) as [e|l] eqn:Hl; [done|].
  destruct (validate_predictions mode out.1.1) as [e|p] eqn:Hp; [done|].
  injection Hout as <- <- <-.
  apply validate_loss_result in Hl as [Hsome Hshape].
  split; [|split; [|split]].
  - intros ->. split; [by eapply validate_train_op_TRAIN | by apply Hsome].
  - intros ->. by apply Hsome.
  - intros ->. by eapply validate_predictions_INFER.
  - exact Hshape.
Qed.

Lemma res_mapM_Forall2 {A B} (f : A → Res B) l l' :
  res_mapM f l = inr l' → Forall2 (λ a b, f a = inr b) l l'.
Proof.
  revert l'. induction l as [|a l IH]; intros l'; simpl.
  - intros [= <-]. constructor.
  - unfold res_bind. destruct (f a) as [e|b] eqn:Hb; [done|].
    destruct (res_mapM f l) as [e|bs]; [done|].
    intros [= <-]. constructor; [done | by apply IH].
Qed.

Lemma converted_dict_lookup (d : gmap string Value) kts :
  Forall2 (λ (kv : string * Value) (kt : string * Tensor),
             res_bind (convert_to_tensor_or_sparse_tensor kv.2)
                      (λ t, inr (kv.1, t)) = inr kt)
          (map_to_list d) kts →
  ∀ k,
    match d !! k with
    | Some v =>
        ∃ t, convert_to_tensor_or_sparse_tensor v = inr t
             ∧ (list_to_map kts : gmap string Tensor) !! k = Some t
    | None => (list_to_map kts : gmap string Tensor) !! k = None
    end.
Proof.
  intros Hall.
  assert (Forall2 (λ (kv : string * Value) (kt : string * Tensor),
                     kv.1 = kt.1
                     ∧ convert_to_tensor_or_sparse_tensor kv.2 = inr kt.2)
                  (map_to_list d) kts) as Hall'.
  { eapply Forall2_impl; [exact Hall|]. intros [k v] kt. simpl.
    unfold res_bind.
    destruct (convert_to_tensor_or_sparse_tensor v) as [e|t]; [done|].
    by intros [= <-]. }
  assert (kts.*1 = (map_to_list d).*1) as Hkeys.
  { clear Hall. induction Hall' as [|kv kt l l' [Hk _] _ IH]; [done|].
    rewrite !fmap_cons. by rewrite IH, Hk. }
  assert (NoDup kts.*1) as Hnd
    by (rewrite Hkeys; apply NoDup_fst_map_to_list).
  intros k. destruct (d !! k) as [v|] eqn:Hk.
  - apply elem_of_map_to_list in Hk.
    apply list_elem_of_lookup in Hk as [i Hi].
    destruct (Forall2_lookup_l _ _ _ _ _ Hall' Hi) as (kt & Hkt & Hfst & Hconv).
    simpl in *. exists kt.2. split; [done|].
    apply elem_of_list_to_map; [done|].
    apply list_elem_of_lookup. exists i. rewrite Hkt. by destruct kt; subst.
  - apply not_elem_of_list_to_map. rewrite Hkeys.
    intros Hin. apply list_elem_of_fmap in Hin as ([k' v] & -> & Hin).
    apply elem_of_map_to_list in Hin. simpl in *. congruence.
Qed.

(** X12. When the model function returns a dict of predictions and
    [_call_model_fn] succeeds, the predictions it returns are a dict with
    the same keys, each holding the conversion of the value the model
    function gave under that key: no output is dropped, renamed or
    added. *)
Theorem converted_predictions_keep_their_keys model_fn params fe features
    targets mode d loss train_op predictions' loss' train_op' :
  model_fn_returns model_fn params fe features targets mode
    (Some (Dict d), loss, train_op) →
  _call_model_fn model_fn params fe features targets mode
  = inr (predictions', loss', train_op') →
  ∃ d',
    predictions' = Some (Dict d')
    ∧ ∀ k,
        match d !! k with
        | Some v =>
            ∃ t, convert_to_tensor_or_sparse_tensor v = inr t
                 ∧ d' !! k = Some t
        | None => d' !! k = None
        end.
Proof.
  intros Hret Hcall. rewrite (_call_model_fn_returns _ _ _ _ _ _ _ Hret) in Hcall.
  unfold validate_outputs, res_bind in Hcall. simpl in Hcall.
  destruct (validate_train_op mode train_op) as [e|op]; [done|].
  destruct (validate_loss mode loss) as [e|l]; [done|].
  unfold validate_predictions, res_bind in Hcall.
  destruct (res_mapM _ (map_to_list d)) as [e|kts] eqn:Hmap; [done|].
  injection Hcall as <- _ _.
  eexists. split; [done|].
  apply converted_dict_lookup. by apply res_mapM_Forall2 in Hmap.
Qed.

(** X13. For a model function whose arguments can be introspected, the
    constructor of [Estimator] succeeds exactly when params is None or the
    function declares an argument named 'params', and otherwise raises
    ValueError; without a model function it always succeeds. *)
Theorem Estimator_wants_a_params_argument f args model_dir config params
    feature_engineering_fn :
  _get_arguments (model_fn_callable f) = Some args →
  ((∃ self, Estimator (Some f) model_dir config params feature_engineering_fn
            = inr self)
   ↔ params = None ∨ "params" ∈ args)
  ∧ (∀ e, Estimator (Some f) model_dir config params feature_engineering_fn
          = inl e →
          e = ValueError
                "Estimator's model_fn (%s) has less than 4 arguments, but not None params (%s) are passed.")
  ∧ (∃ self, Estimator None model_dir config params feature_engineering_fn
             = inr self).
Proof.
  intros Hargs. unfold Estimator. rewrite Hargs. simpl.
  split; [|split; [|by eexists]].
  - destruct params as [ps|]; simpl.
    + case_bool_decide as Hin; simpl.
      * split; [by right | by eexists].
      * split; [by intros [self [=]] | by intros [[=]|?]].
    + split; [by left | by eexists].
  - intros e. destruct params as [ps|]; simpl; [|done].
    case_bool_decide; simpl; [done | by intros [= <-]].
Qed.
End ModelFunctionResults.

Section MetricsAssembly.

Lemma metric_step_raised {Acc A} (step : Res Acc → A → Res Acc) e l :
  (∀ a, step (inl e) a = inl e) → foldl step (inl e) l = inl e.
Proof. intros Hstep. induction l as [|a l IH]; simpl; [done|]. by rewrite Hstep. Qed.

(** X14. The split of the evaluation ops keeps every metric under its
    name: a metric that is a pair gives its first tensor as the value and
    its second as an update op, any other metric is its own value.  The
    update op of the evaluation is the group of exactly those second
    tensors, and None when no metric is a pair. *)
Theorem _extract_metric_update_ops_splits_the_pairs
    (eval_dict : gmap MetricName MetricOps) :
  let r := _extract_metric_update_ops eval_dict in
  (∀ k, r.2 !! k
        = match eval_dict !! k with
          | Some (MetricSeq [v; _]) => Some (MetricTensor v)
          | other => other
          end)
  ∧ (r.1 = None ↔ ∀ k v u, eval_dict !! k ≠ Some (MetricSeq [v; u]))
  ∧ (∀ op, r.1 = Some op →
           ∃ us, op = Group us
                 ∧ ∀ u, u ∈ us
                        ↔ ∃ k v, eval_dict !! k = Some (MetricSeq [v; u])).
Proof.
  unfold _extract_metric_update_ops. simpl.
  set (second := λ kv : MetricName * MetricOps,
                   match kv.2 with MetricSeq [_; u] => [u] | _ => [] end).
  set (us := mjoin (second <$> map_to_list eval_dict)).
  assert (∀ u, u ∈ us ↔ ∃ k v, eval_dict !! k = Some (MetricSeq [v; u]))
    as Hus.
  { intros u. subst us. rewrite list_elem_of_join. split.
    - intros (l & Hu & Hl).
      apply list_elem_of_fmap in Hl as ([k ops] & -> & Hin).
      apply elem_of_map_to_list in Hin. subst second. simpl in Hu.
      destruct ops as [t|[|v [|u' [|]]]]; try by apply elem_of_nil in Hu.
      apply list_elem_of_singleton in Hu as ->. by exists k, v.
    - intros (k & v & Hk). exists [u]. split; [by apply list_elem_of_singleton|].
      apply list_elem_of_fmap. exists (k, MetricSeq [v; u]).
      split; [done | by apply elem_of_map_to_list]. }
  clearbody us. split; [|split].
  - intros k. rewrite lookup_fmap.
    destruct (eval_dict !! k) as [[t|[|v [|u [|]]]]|]; done.
  - destruct us as [|u us].
    + split; [|done]. intros _ k v u Hk.
      eapply elem_of_nil, Hus. by exists k, v.
    + split; [done|]. intros Hno.
      destruct (proj1 (Hus u)) as (k & v & Hk); [by left|].
      by apply Hno in Hk.
  - intros op. destruct us as [|u us]; [done|].
    intros [= <-]. by eexists.
Qed.

(** X15. Before the metrics are built, a targets dict with exactly one
    entry is unpacked into its tensor; a dict with no entry or with several
    is handed on whole, and so is a single tensor or None.  A metric spec
    is given the features, these targets and the predictions, and its ops
    are stored under the metric's name. *)
Theorem single_target_is_unpacked name create features targets predictions :
  _make_metrics_ops (Some [(name, MetricSpec create)]) features targets
    predictions
  = res_bind (create features (metric_targets targets) predictions)
             (λ ops, inr {[ name := ops ]})
  ∧ (∀ k t, targets = Some (Dict {[ k := t ]}) →
            metric_targets targets = Some (One t))
  ∧ (∀ d, targets = Some (Dict d) → size d ≠ 1 →
          metric_targets targets = targets)
  ∧ (∀ t, targets = Some (One t) → metric_targets targets = targets)
  ∧ (targets = None → metric_targets targets = None).
Proof.
  split; [|split; [|split; [|split]]].
  - unfold _make_metrics_ops, metric_targets. simpl.
    destruct (create _ _ _); simpl; [done|]. by rewrite insert_empty.
  - intros k t ->. unfold metric_targets. by rewrite map_to_list_singleton.
  - intros d -> Hsize. unfold metric_targets.
    rewrite <- length_map_to_list in Hsize.
    by destruct (map_to_list d) as [|[k t] [|]].
  - by intros t ->.
  - by intros ->.
Qed.

(** X16. When every metric is a metric spec and the names are distinct, a
    successful assembly holds, under each name, the ops its spec made from
    the features, the targets as the metrics see them and the predictions,
    and holds nothing under any other key. *)
Theorem metric_specs_are_stored_under_their_names items features targets
    predictions result :
  Forall (λ nm : MetricName * Metric, ∃ create, nm.2 = MetricSpec create)
         items →
  NoDup items.*1 →
  _make_metrics_ops (Some items) features targets predictions = inr result →
  (∀ name create,
     (name, MetricSpec create) ∈ items →
     ∃ ops, create features (metric_targets targets) predictions = inr ops
            ∧ result !! name = Some ops)
  ∧ (∀ name, name ∉ items.*1 → result !! name = None).
Proof.
  unfold _make_metrics_ops. simpl. fold (metric_targets targets).
  match goal with
  | |- context [foldl ?f _ _] => set (step := f)
  end.
  assert (∀ e nm, step (inl e) nm = inl e) as Hraised by done.
  intros Hspecs Hnd.
  assert (∀ acc,
            foldl step (inr acc) items = inr result →
            (∀ name create,
               (name, MetricSpec create) ∈ items →
               ∃ ops, create features (metric_targets targets) predictions
                      = inr ops
                      ∧ result !! name = Some ops)
            ∧ (∀ name, name ∉ items.*1 → result !! name = acc !! name))
    as Hgen; last first.
  { intros Hr. destruct (Hgen ∅ Hr) as [Hin Hout]. split; [done|].
    intros name Hname. by rewrite Hout. }
  clear Hraised. revert Hspecs Hnd.
  induction items as [|[name0 metric] items IH];
    intros Hspecs Hnd acc Hr; simpl in *.
  - injection Hr as <-. split; [by intros ? ? ?%elem_of_nil | done].
  - apply Forall_cons in Hspecs as [[create0 Hm] Hspecs]. simpl in Hm.
    subst metric. apply NoDup_cons in Hnd as [Hfresh Hnd].
    destruct (create0 features (metric_targets targets) predictions)
      as [e|ops0] eqn:Hc; simpl in Hr.
    { rewrite metric_step_raised in Hr; done. }
    destruct (IH Hspecs Hnd _ Hr) as [Hin Hout]. split.
    + intros name create Hel.
      apply elem_of_cons in Hel as [[= -> ->]|Hel]; [|by apply Hin].
      exists ops0. split; [done|].
      rewrite Hout by done. by rewrite lookup_insert_eq.
    + intros name Hname. apply not_elem_of_cons in Hname as [Hne Hname].
      rewrite Hout by done. by rewrite lookup_insert_ne.
Qed.

(** X17. A metric given as a bare function is refused when it does not fit
    the predictions: under a string name when the predictions are a dict,
    under a tuple name that has not two parts, under a two-part tuple name
    when the predictions are no dict (each a ValueError), and with a
    KeyError when the second part names no prediction.  The metrics after
    it are not looked at. *)
Theorem bare_metric_functions_must_fit_the_predictions name fn rest features
    targets predictions :
  let r := _make_metrics_ops (Some ((name, MetricFn fn) :: rest)) features
             targets predictions in
  (∀ n, name = NameStr n → is_dict predictions = true →
        r = inl (ValueError
              "Metrics passed provide only name, no prediction, but predictions are dict. Metrics: %s, Targets: %s."))
  ∧ (∀ parts, name = NameTuple parts → length parts ≠ 2 →
              r = inl (ValueError
                    "Invalid metric for {}. It returned a tuple with len {}, expected 2."))
  ∧ (∀ a b, name = NameTuple [a; b] → is_dict predictions = false →
            r = inl (ValueError
                  "Metrics passed provide (name, prediction), but predictions are not dict. Metrics: %s, Predictions: %s."))
  ∧ (∀ a b preds,
       name = NameTuple [a; b] → predictions = Some (Dict preds) →
       preds !! b = None → r = inl (KeyError b)).
Proof.
  intros r. subst r. unfold _make_metrics_ops. simpl.
  match goal with
  | |- context [foldl ?f _ _] => set (step := f)
  end.
  assert (∀ e, foldl step (inl e) rest = inl e) as Hraised
    by (intros e; by apply metric_step_raised).
  split; [|split; [|split]].
  - intros n -> Hdict. rewrite Hdict. apply Hraised.
  - intros parts -> Hlen.
    destruct parts as [|a [|b [|c parts]]]; simpl in *; try done;
      by destruct predictions as [[|]|].
  - intros a b -> Hdict.
    destruct predictions as [[|]|]; simpl in *; done.
  - intros a b preds -> -> Hb. rewrite Hb. apply Hraised.
Qed.
End MetricsAssembly.

Section EvaluationPath.
Context `{Framework}.
Variable self : BaseEstimator.

(** X18. A call of evaluate that passes its gates and the signature check
    hands the evaluation loop the split of what the estimator's eval method
    returned, the model directory as the place of the checkpoint and the
    feed function; it returns the loop's results with the global step added
    under 'global_step', in place of a metric of that name if there is one,
    and returns None when the loop gives no results. *)
Theorem evaluate_reports_the_global_step
    x y input_fn feed_fn batch_size steps metrics name fns features targets
    path eval_dict results step s s2 s3 :
  evaluation_enabled (_config self) →
  checkpoints s !! _model_dir self = Some path →
  path ≠ "" →
  metrics_is_None_or_dict metrics →
  _get_input_fn x y input_fn feed_fn batch_size false (Some 1%Z) = inr fns →
  fns.1 = inr (InputPair features targets) →
  _check_inputs features targets (inference_start (_model_dir self) s)
  = (inr tt, s2) →
  _get_eval_ops self features targets (metrics_items metrics) s2
  = (inr eval_dict, s3) →
  graph_actions_evaluate (eval_request self name steps fns.2 eval_dict)
  = inr (results, step) →
  evaluate self x y input_fn feed_fn batch_size steps metrics name s
  = (inr (insert (NameStr "global_step") step <$> results), s3).
Proof.
  intros Hen Hck Hpath Hm Hfns Hin Hcheck Hops Hloop.
  assert (_evaluate_model self fns.1 steps fns.2 (metrics_items metrics) name s
          = (inr (results, Some step), s3)) as Hmodel.
  { unfold _evaluate_model, evaluation_enabled in *.
    assert (match execution_mode (_config self) with
            | Some mode =>
                negb (bool_decide (mode ∈ ["all"; "evaluate"; "eval_evalset"]))
            | None => false
            end = false) as ->.
    { destruct (execution_mode (_config self)); [|done].
      by rewrite bool_decide_eq_true_2. }
    erewrite bind_ok by apply latest_checkpoint_run.
    rewrite Hck. simpl. rewrite bool_decide_eq_false_2 by done. simpl.
    erewrite bind_ok by apply new_graph_run.
    rewrite Hin. erewrite bind_ok by reflexivity. simpl.
    erewrite bind_ok by exact Hcheck.
    erewrite bind_ok by exact Hops.
    unfold eval_request in Hloop.
    by rewrite (bind_lift_ok _ _ _ _ Hloop). }
  unfold evaluate. rewrite (bind_lift_ok _ _ fns) by done.
  destruct metrics as [[items|repr]|]; [| done |].
  - erewrite bind_ok by reflexivity.
    erewrite bind_ok by exact Hmodel. by destruct results.
  - erewrite bind_ok by reflexivity.
    erewrite bind_ok by exact Hmodel. by destruct results.
Qed.
End EvaluationPath.

Section PredictionPath.
Context `{Framework}.
Variable self : BaseEstimator.

(** X19. When the predict method returns a dict of predictions and the
    caller names outputs, predict runs exactly the predictions whose names
    are among them, raises ValueError when none is, and runs them all when
    no outputs are named. *)
Theorem predict_runs_the_named_outputs input_fn feed_fn outs path features d
    s s2 :
  checkpoints s !! _model_dir self = Some path →
  path ≠ "" →
  _get_features_from_input_fn input_fn = inr features →
  _get_predict_ops self features (inference_start (_model_dir self) s)
  = (inr (Some (Dict d)), s2) →
  outs ≠ [] →
  let kept :=
    filter (λ kv : string * option Tensor, kv.1 ∈ outs) (Some <$> d) in
  let sequence predictions :=
    PredictIterable
      {| gen_checkpoint_path := path; gen_predictions := predictions;
         gen_feed_fn := feed_fn; gen_return_dict := true |} in
  (∀ k, kept !! k = if decide (k ∈ outs) then Some <$> d !! k else None)
  ∧ ((∀ k, k ∈ outs → d !! k = None) →
     _infer_model self input_fn feed_fn (Some outs) true s
     = (inl (ValueError
          "Expected to run at least one output from %s, provided %s."), s2))
  ∧ ((∃ k, k ∈ outs ∧ is_Some (d !! k)) →
     _infer_model self input_fn feed_fn (Some outs) true s
     = (inr (sequence kept), s2))
  ∧ _infer_model self input_fn feed_fn None true s
    = (inr (sequence (Some <$> d)), s2).
Proof.
  intros Hck Hpath Hfeatures Hops Houts kept sequence.
  assert (∀ k, kept !! k = if decide (k ∈ outs) then Some <$> d !! k else None)
    as Hkept.
  { intros k. subst kept. rewrite map_lookup_filter, lookup_fmap. simpl.
    destruct (d !! k) as [t|]; simpl; [|by case_decide].
    case_decide; [by rewrite option_guard_True | by rewrite option_guard_False]. }
  assert (∀ outputs,
            _infer_model self input_fn feed_fn outputs true s
            = bind match outputs with
                   | None | Some [] => ret (Some <$> d)
                   | Some outs' =>
                       let kept' :=
                         filter (λ kv : string * option Tensor, kv.1 ∈ outs')
                                (Some <$> d) in
                       if bool_decide (size kept' = 0)
                       then raise (ValueError
                         "Expected to run at least one output from %s, provided %s.")
                       else ret kept'
                   end
                   (λ predictions, ret (sequence predictions)) s2) as Hrun.
  { intros outputs. unfold _infer_model.
    erewrite bind_ok by apply latest_checkpoint_run.
    rewrite Hck. rewrite bool_decide_eq_false_2 by done.
    erewrite bind_ok by apply new_graph_run.
    rewrite (bind_lift_ok _ _ _ _ Hfeatures).
    erewrite bind_ok by exact Hops. reflexivity. }
  split; [done|]. split; [|split].
  - intros Hnone. rewrite Hrun.
    destruct outs as [|o outs]; [done|]. cbv zeta. fold kept.
    rewrite bool_decide_eq_true_2; [done|].
    apply map_size_empty_iff, map_eq. intros k.
    rewrite Hkept, lookup_empty. case_decide; [|done].
    by rewrite Hnone.
  - intros (k & Hk & [t Ht]). rewrite Hrun.
    destruct outs as [|o outs]; [done|]. cbv zeta. fold kept.
    rewrite bool_decide_eq_false_2; [done|].
    intros Hempty%map_size_empty_iff.
    pose proof (Hkept k) as Hlook.
    rewrite Hempty, lookup_empty, decide_True, Ht in Hlook by done. done.
  - by rewrite Hrun.
Qed.
End PredictionPath.

Section BatchFacts.

Lemma unpack_rows_error output_batch indices e :
  (unpack_rows output_batch indices).2 = Some e →
  e = IndexError "index out of bounds".
Proof.
  induction indices as [|i indices IH]; simpl; [done|].
  unfold batch_row. case_bool_decide; simpl; [done|]. by intros [= <-].
Qed.

Lemma unpack_batch_error return_dict output_batch e :
  (unpack_batch return_dict output_batch).2 = Some e →
  e ≠ OutOfRangeError.
Proof.
  unfold unpack_batch. destruct return_dict.
  - destruct ((map_to_list output_batch).*2) as [|value values]; simpl.
    + by intros [= <-].
    + by intros ->%unpack_rows_error.
  - destruct (output_batch !! "predictions"); simpl; [done|]. by intros [= <-].
Qed.

Lemma unpack_rows_full (output_batch : gmap string ndarray) n indices :
  map_Forall (λ _ (value : ndarray), length value = n) output_batch →
  Forall (λ i, i < n) indices →
  unpack_rows output_batch indices
  = ((λ i, PredictionDict (omap (λ value : ndarray, value !! i) output_batch))
       <$> indices, None).
Proof.
  intros Hlen. induction 1 as [|i indices Hi _ IH]; simpl; [done|].
  unfold batch_row. rewrite bool_decide_eq_true_2.
  - by rewrite IH.
  - intros k value Hk. simpl. by rewrite (Hlen k value Hk).
Qed.

(** X20. A batch whose arrays all have n rows is unpacked into n
    predictions, in order; the i-th is a dict with the keys of the batch,
    each holding row i of its array.  A batch with no output at all raises
    IndexError instead. *)
Theorem dict_batches_are_unpacked_row_by_row
    (output_batch : gmap string ndarray) n :
  map_Forall (λ _ (value : ndarray), length value = n) output_batch →
  (output_batch ≠ ∅ →
   ∃ items,
     unpack_batch true output_batch = (items, None)
     ∧ length items = n
     ∧ ∀ i, i < n →
         ∃ d, items !! i = Some (PredictionDict d)
              ∧ ∀ k, d !! k = output_batch !! k ≫= (λ value, value !! i))
  ∧ (output_batch = ∅ →
     unpack_batch true output_batch
     = ([], Some (IndexError "list index out of range"))).
Proof.
  intros Hlen. split; [|by intros ->].
  intros Hne. unfold unpack_batch.
  destruct (map_to_list output_batch) as [|[k0 value0] rest] eqn:Hlist.
  { by apply map_to_list_empty_iff in Hlist. }
  simpl.
  assert (length value0 = n) as ->.
  { apply (Hlen k0). apply elem_of_map_to_list.
    unfold ndarray in *. rewrite Hlist. by left. }
  rewrite (unpack_rows_full _ n) by (done || apply Forall_seq; lia).
  eexists. split; [done|]. split; [by rewrite length_fmap, length_seq|].
  intros i Hi. eexists. split.
  - rewrite list_lookup_fmap, lookup_seq_lt by done. reflexivity.
  - intros k. by rewrite lookup_omap.
Qed.
End BatchFacts.

Section ListFacts.

Lemma res_mapM_all_ok {A B} (f : A → Res B) (g : A → B) l :
  Forall (λ a, f a = inr (g a)) l → res_mapM f l = inr (g <$> l).
Proof.
  induction 1 as [|a l Ha _ IH]; [done|].
  simpl. rewrite Ha. simpl. by rewrite IH.
Qed.

Lemma join_fmap_fmap {A B C} (F : A → list C) (G : B → C) (D : A → list B) l :
  Forall (λ a, F a = G <$> D a) l →
  mjoin (F <$> l) = G <$> mjoin (D <$> l).
Proof.
  induction 1 as [|a l Ha _ IH]; [done|].
  rewrite !fmap_cons. simpl. by rewrite fmap_app, Ha, IH.
Qed.

Lemma unpack_single_batch (output_batch : gmap string ndarray) a :
  output_batch !! "predictions" = Some a →
  unpack_batch false output_batch = (PredictionRow <$> a, None).
Proof. unfold unpack_batch. by intros ->. Qed.
End ListFacts.

Section GeneratorFacts.
Context `{Framework}.
Variable checkpoint_path : string.
Variable predictions : gmap string (option Tensor).
Variable feed_fn : option FeedFn.
Variable return_dict : bool.

Local Abbreviation engine :=
  (run_feeds_iter predictions (feed_dicts feed_fn) checkpoint_path).
Local Abbreviation generator :=
  (λ fuel, _infer_model_as_iterable fuel checkpoint_path predictions feed_fn
             return_dict).
Local Abbreviation items_of :=
  (λ bs : list (gmap string ndarray),
     mjoin ((λ b, (unpack_batch return_dict b).1) <$> bs)).

Lemma generator_over_batches bs : ∀ fuel n,
  (∀ j b, bs !! j = Some b → engine (n + j) = Yield b) →
  Forall (λ b, (unpack_batch return_dict b).2 = None) bs →
  length bs < fuel →
  generator fuel n
  = (items_of bs ++ (generator (fuel - length bs) (n + length bs)).1,
     (generator (fuel - length bs) (n + length bs)).2).
Proof.
  induction bs as [|b bs IH]; intros fuel n Hengine Hok Hfuel.
  - simpl. rewrite Nat.sub_0_r, Nat.add_0_r.
    by destruct (_infer_model_as_iterable _ _ _ _ _ _).
  - destruct fuel as [|fuel]; [simpl in Hfuel; lia|].
    apply Forall_cons in Hok as [Hb Hok].
    pose proof (Hengine 0 b eq_refl) as Hn. rewrite Nat.add_0_r in Hn.
    rewrite (generator_step _ _ _ _ _ _ _ Hn Hb).
    rewrite (IH fuel (S n)); [|intros j b' Hj|done|simpl in Hfuel; lia].
    + simpl. rewrite <- Nat.add_succ_comm. by rewrite (assoc_L (++)).
    + rewrite Nat.add_succ_comm. by apply (Hengine (S j)).
Qed.

(** X21. An error that is not the end of the input does leave the
    generator: when the engine raises anything but out-of-range, or a batch
    cannot be unpacked, the consumer gets the predictions of the batches
    before it (and of the rows unpacked so far) and then that error. *)
Theorem other_errors_leave_the_generator bs fuel n e :
  (∀ j b, bs !! j = Some b → engine (n + j) = Yield b) →
  Forall (λ b, (unpack_batch return_dict b).2 = None) bs →
  length bs < fuel →
  (engine (n + length bs) = Raise e → e ≠ OutOfRangeError →
   generator fuel n = (items_of bs, Raised e))
  ∧ (∀ b items,
       engine (n + length bs) = Yield b →
       unpack_batch return_dict b = (items, Some e) →
       generator fuel n = (items_of bs ++ items, Raised e)).
Proof.
  intros Hengine Hok Hfuel. cbv beta.
  rewrite (generator_over_batches bs fuel n) by done.
  destruct (fuel - length bs) as [|rest] eqn:Hrest; [lia|].
  split.
  - intros Hraise Hne. simpl. rewrite Hraise.
    destruct e; try done; simpl; by rewrite app_nil_r.
  - intros b items Hyield Hunpack. simpl. rewrite Hyield, Hunpack.
    assert (e ≠ OutOfRangeError) as Hne
      by (eapply unpack_batch_error; by rewrite Hunpack).
    by destruct e.
Qed.

(** X22. Eager and lazy prediction agree.  For a single un-named
    prediction fed by a feed function, when the engine's eager run returns
    the batches that its session gives feed by feed until the input is
    exhausted, predict with as_iterable=False returns the concatenation of
    the batches' arrays, and the lazy sequence yields exactly the rows of
    that array, in order, and then ends. *)
Theorem eager_and_lazy_prediction_agree t f bs fuel :
  predictions = {[ "predictions" := t ]} →
  feed_fn = Some f →
  return_dict = false →
  graph_actions_run_feeds predictions f checkpoint_path = inr bs →
  bs ≠ [] →
  (∀ j b, bs !! j = Some b → engine j = Yield b) →
  input_exhausted_at checkpoint_path predictions feed_fn (length bs) →
  Forall (λ b : gmap string ndarray, is_Some (b !! "predictions")) bs →
  length bs < fuel →
  ∃ a,
    _infer_model_single checkpoint_path predictions feed_fn return_dict
    = inr (PredictArray a)
    ∧ generator fuel 0 = (PredictionRow <$> a, Returned)
    ∧ a = mjoin ((λ b : gmap string ndarray, default [] (b !! "predictions"))
                   <$> bs).
Proof.
  intros Hpreds Hfeed Hrd Hrun Hne Hengine Hend Hkeys Hfuel.
  eexists. split; [|split; [|reflexivity]].
  - unfold _infer_model_single. rewrite Hfeed, Hrun.
    unfold res_bind at 2. rewrite Hpreds, map_to_list_singleton.
    cbn [fmap list_fmap fst res_mapM]. unfold concatenate_key.
    rewrite (res_mapM_all_ok _
               (λ b : gmap string ndarray, default [] (b !! "predictions"))).
    + destruct bs as [|b bs']; [done|].
      unfold res_bind. rewrite Hrd, !fmap_cons. cbv iota beta.
      by rewrite list_to_map_cons, list_to_map_nil, lookup_insert_eq.
    + eapply Forall_impl; [exact Hkeys|].
      intros b [a Ha]. cbv beta. unfold ndarray, Row in *. by rewrite Ha.
  - cbv beta. rewrite (generator_over_batches bs fuel 0); [|done| |done].
    + apply exhausted_engine in Hend.
      destruct (fuel - length bs) as [|rest] eqn:Hrest; [lia|].
      rewrite (generator_stops_at_end _ _ _ _ _ _ Hend).
      cbn [fst snd]. rewrite app_nil_r. f_equal. rewrite Hrd.
      apply join_fmap_fmap.
      eapply Forall_impl; [exact Hkeys|].
      intros b [a Ha]. cbv beta.
      rewrite (unpack_single_batch _ _ Ha). unfold ndarray, Row in *.
      by rewrite Ha.
    + rewrite Hrd. eapply Forall_impl; [exact Hkeys|].
      intros b [a Ha]. cbv beta. by rewrite (unpack_single_batch _ _ Ha).
Qed.
End GeneratorFacts.

Section FeatureColumnFacts.
Context `{Framework}.
Variable FeatureColumn : Type.
Variable infer_real_valued_columns : option Tensors → Res (list FeatureColumn).
Variable create_example_parser_from_signatures :
  Signatures → Tensor → Res (option Tensors).

(** X23. [infer_real_valued_columns_from_input] refuses a missing x and an
    x that is a tensor with the input adapter's ValueError, before any
    graph is built; for raw features it builds one graph, infers the
    columns from the features the data feeder's input builder gives, and
    leaves the rest of the state as it was. *)
Theorem infer_real_valued_columns_from_input_wants_raw_features x s :
  let run :=
    infer_real_valued_columns_from_input FeatureColumn
      infer_real_valued_columns x s in
  (x = None →
   run = (inl (ValueError "Either x or input_fn must be provided."), s))
  ∧ (∀ xv, x = Some xv → is_tensor xv = true →
           run = (inl (ValueError
                    "Inputs cannot be tensors. Please provide input_fn."), s))
  ∧ (∀ xv df features targets,
       x = Some xv → is_tensor xv = false →
       setup_train_data_feeder xv None None false (Some 1%Z) = inr df →
       input_builder df = inr (InputPair features targets) →
       run = (infer_real_valued_columns features, with_event NewGraph s)).
Proof.
  intros run. subst run. unfold infer_real_valued_columns_from_input.
  split; [|split].
  - by intros ->.
  - intros xv -> Hx. unfold _get_input_fn. by rewrite Hx.
  - intros xv df features targets -> Hx Hdf Hin.
    unfold _get_input_fn. rewrite Hx, Hdf. simpl.
    erewrite bind_ok by reflexivity. simpl.
    unfold infer_real_valued_columns_from_input_fn.
    erewrite bind_ok by apply new_graph_run.
    rewrite Hin. erewrite bind_ok by reflexivity. reflexivity.
Qed.

(** X24. The example parser of an estimator needs a stored feature
    signature: on an estimator that has stored none it raises ValueError;
    once the signature check has stored one, it parses the examples with
    that signature.  It never changes the estimator. *)
Theorem example_parser_needs_a_stored_signature examples_batch s :
  let parse :=
    _get_feature_ops_from_example create_example_parser_from_signatures
      examples_batch in
  (_features_info s = None →
   parse s
   = (inl (ValueError "Features information missing, was fit() ever called?"),
      s))
  ∧ (∀ info, _features_info s = Some info →
             parse s
             = (create_example_parser_from_signatures info examples_batch, s))
  ∧ (∀ features targets info,
       _features_info s = None → _targets_info s = None →
       create_signatures features = Some info →
       parse (_check_inputs features targets s).2
       = (create_example_parser_from_signatures info examples_batch,
          (_check_inputs features targets s).2)).
Proof.
  intros parse.
  assert (∀ s' info, _features_info s' = Some info →
            parse s'
            = (create_example_parser_from_signatures info examples_batch, s'))
    as Hparse.
  { intros s' info Hinfo. subst parse. unfold _get_feature_ops_from_example.
    erewrite bind_ok by reflexivity. by rewrite Hinfo. }
  split; [|split].
  - intros Hnone. subst parse. unfold _get_feature_ops_from_example.
    erewrite bind_ok by reflexivity. by rewrite Hnone.
  - apply Hparse.
  - intros features targets info Hf Ht Hsig. apply Hparse.
    unfold _check_inputs. erewrite bind_ok by reflexivity. rewrite Hf.
    erewrite bind_ok by reflexivity.
    destruct targets as [t|]; simpl.
    + erewrite bind_ok by reflexivity. simpl. by rewrite Ht.
    + done.
Qed.
End FeatureColumnFacts.

(** * More concrete runs *)

Section ConcreteLifecycleRuns.
Import Example.

Local Abbreviation identity := _identity_feature_engineering_fn.

Lemma Estimator_hooks_only_read `{Framework} model_fn params fe :
  (∀ features targets,
     keeps_state (Estimator_get_train_ops model_fn params fe features targets))
  ∧ (∀ features targets metrics,
       keeps_state
         (Estimator_get_eval_ops model_fn params fe features targets metrics))
  ∧ (∀ features,
       keeps_state (Estimator_get_predict_ops model_fn params fe features)).
Proof.
  split; [|split].
  - intros features targets s. unfold Estimator_get_train_ops, bind, lift.
    by destruct (_call_model_fn _ _ _ _ _ _).
  - intros features targets metrics s.
    unfold Estimator_get_eval_ops, bind, lift.
    destruct (_call_model_fn _ _ _ _ _ _) as [e|r]; [done|].
    by destruct (_make_metrics_ops _ _ _ _).
  - intros features s. unfold Estimator_get_predict_ops, bind, lift, get.
    by destruct (_call_model_fn _ _ _ _ _ _).
Qed.

Lemma extractors_agree_on_one_column_witness :
  length one_column ≤ 1
  ∧ pandas_io.extract_pandas_labels (pandas_io.DataFrame one_column)
    = inr (pandas_io.NdArray (pandas_io.values one_column))
  ∧ pandas_io.extract_pandas_data (pandas_io.DataFrame one_column)
    = inr (pandas_io.NdArray
             (pandas_io.astype "float" (pandas_io.values one_column))).
Proof.
  assert (length one_column ≤ 1) as Hone by (simpl; lia).
  split; [exact Hone|]. split; [reflexivity|].
  destruct (extractors_agree_on_one_column one_column Hone) as [_ Hdata].
  apply (Hdata (pandas_io.values one_column)). reflexivity.
Defined.

Lemma first_check_stores_signatures_witness :
  _features_info unfit = None
  ∧ _targets_info unfit = None
  ∧ @_check_inputs framework (Some (One x_tensor)) None unfit
    = (inr tt,
       {| _features_info := Some (One (signature_of x_tensor));
          _targets_info := None; _graph := None;
          checkpoints := ∅; events := [] |}).
Proof.
  split; [reflexivity|]. split; [reflexivity|].
  exact (@first_check_stores_signatures framework (Some (One x_tensor)) None
           unfit eq_refl eq_refl).
Defined.

Lemma fit_does_nothing_when_training_is_disabled_witness :
  execution_mode (_config (estimator (Some "evaluate"))) = Some "evaluate"
  ∧ ("evaluate" ∉ ["all"; "train"])
  ∧ ¬ (is_Some (Some 10%Z) ∧ is_Some (@None Z))
  ∧ @_get_input_fn framework None None (Some (input_fn x_tensor)) None None
      true None = inr (input_fn x_tensor, None)
  ∧ @fit framework (estimator (Some "evaluate")) None None
      (Some (input_fn x_tensor)) (Some 10%Z) None None None unfit
    = (inr tt, unfit).
Proof.
  assert ("evaluate" ∉ ["all"; "train"]) as Hnot
    by (apply (bool_decide_unpack _); vm_compute; exact I).
  assert (¬ (is_Some (Some 10%Z) ∧ is_Some (@None Z))) as Hsteps
    by (intros [_ [z Hz]]; discriminate Hz).
  split; [reflexivity|]. split; [exact Hnot|]. split; [exact Hsteps|].
  split; [reflexivity|].
  exact (proj1 (@fit_does_nothing_when_training_is_disabled framework
                  (estimator (Some "evaluate")) None None
                  (Some (input_fn x_tensor)) (Some 10%Z) None None None
                  "evaluate" (input_fn x_tensor, None) unfit
                  eq_refl Hnot Hsteps eq_refl)).
Defined.

Lemma fit_hands_the_model_to_the_training_loop_witness :
  training_enabled (_config (estimator None))
  ∧ stagger_is_a_duration (_config (estimator None))
  ∧ @_check_inputs framework (Some (One x_tensor)) None
      (train_start (_config (estimator None)) unfit) = (inr tt, checked)
  ∧ _get_train_ops (estimator None) (Some (One x_tensor)) None checked
    = (inr (Some (GraphOp "train"), Some loss_tensor), checked)
  ∧ @fit framework (estimator None) None None (Some (input_fn x_tensor))
      (Some 10%Z) None None None unfit
    = (inr tt, with_checkpoints {[ "/m" := "/m/model.ckpt" ]} checked).
Proof.
  assert (stagger_is_a_duration (_config (estimator None))) as Hdur
    by (split; simpl; lia).
  assert (¬ (is_Some (Some 10%Z) ∧ is_Some (@None Z))) as Hsteps
    by (intros [_ [z Hz]]; discriminate Hz).
  split; [exact I|]. split; [exact Hdur|].
  split; [reflexivity|]. split; [reflexivity|].
  exact (@fit_hands_the_model_to_the_training_loop framework (estimator None)
           None None (Some (input_fn x_tensor)) (Some 10%Z) None None None
           (input_fn x_tensor, None) (Some (One x_tensor)) None
           (Some (GraphOp "train"), Some loss_tensor) unfit checked checked
           I Hdur Hsteps eq_refl eq_refl eq_refl eq_refl).
Defined.

Lemma evaluate_and_predict_only_read_witness :
  (∀ features targets metrics,
     keeps_state (_get_eval_ops (estimator None) features targets metrics))
  ∧ (∀ features, keeps_state (_get_predict_ops (estimator None) features))
  ∧ keeps_signatures
      (@predict framework (estimator None) None (Some (input_fn wide_tensor))
         None None true).
Proof.
  destruct (@Estimator_hooks_only_read framework (Some model_fn) None identity)
    as (_ & Heval & Hpredict).
  split; [exact Heval|]. split; [exact Hpredict|].
  exact (proj2 (proj2
    (@evaluate_and_predict_only_read framework (estimator None) None None
       (Some (input_fn wide_tensor)) None None None None None None true
       Heval Hpredict))).
Defined.

Lemma fit_builds_one_graph_after_a_capped_sleep_witness :
  (∀ features targets,
     keeps_state (_get_train_ops staggered_estimator features targets))
  ∧ training_enabled (_config staggered_estimator)
  ∧ stagger_is_a_duration (_config staggered_estimator)
  ∧ events
      (@fit framework staggered_estimator None None (Some (input_fn x_tensor))
         (Some 10%Z) None None None unfit).2
    = [NewGraph; Sleep 8].
Proof.
  destruct (@Estimator_hooks_only_read framework (Some model_fn) None identity)
    as (Htrain & _ & _).
  assert (training_enabled (_config staggered_estimator)) as Hen
    by (apply (bool_decide_unpack _); vm_compute; exact I).
  assert (stagger_is_a_duration (_config staggered_estimator)) as Hdur
    by (split; simpl; lia).
  assert (¬ (is_Some (Some 10%Z) ∧ is_Some (@None Z))) as Hsteps
    by (intros [_ [z Hz]]; discriminate Hz).
  split; [exact Htrain|]. split; [exact Hen|]. split; [exact Hdur|].
  exact (proj1
    (@fit_builds_one_graph_after_a_capped_sleep framework staggered_estimator
       None None (Some (input_fn x_tensor)) (Some 10%Z) None None None
       (input_fn x_tensor, None) unfit Htrain Hen Hdur Hsteps eq_refl)).
Defined.
End ConcreteLifecycleRuns.

Section ConcreteModelFunctionRuns.
Import Example.

Local Abbreviation identity := _identity_feature_engineering_fn.

Lemma _call_model_fn_returns_what_the_mode_needs_witness :
  @_call_model_fn framework (Some model_fn) None identity
    (Some (One x_tensor)) None TRAIN
  = inr (Some (One prediction_tensor), Some loss_tensor,
         Some (GraphOp "train"))
  ∧ is_Some (Some (GraphOp "train"))
  ∧ is_Some (Some loss_tensor).
Proof.
  split; [reflexivity|].
  exact (proj1
    (@_call_model_fn_returns_what_the_mode_needs framework (Some model_fn)
       None identity (Some (One x_tensor)) None TRAIN
       (Some (One prediction_tensor)) (Some loss_tensor)
       (Some (GraphOp "train")) eq_refl) eq_refl).
Defined.

Lemma converted_predictions_keep_their_keys_witness :
  @model_fn_returns (Some dict_model_fn) None identity
    (Some (One x_tensor)) None INFER
    (Some (Dict named_predictions), Some (VTensor loss_tensor),
     Some (VOperation (GraphOp "train")))
  ∧ ∃ d',
      (@_call_model_fn framework (Some dict_model_fn) None identity
         (Some (One x_tensor)) None INFER)
      = inr (Some (Dict d'), Some loss_tensor, Some (GraphOp "train"))
      ∧ ∀ k,
          match named_predictions !! k with
          | Some v =>
              ∃ t, @convert_to_tensor_or_sparse_tensor framework v = inr t
                   ∧ d' !! k = Some t
          | None => d' !! k = None
          end.
Proof.
  assert (@model_fn_returns (Some dict_model_fn) None identity
            (Some (One x_tensor)) None INFER
            (Some (Dict named_predictions), Some (VTensor loss_tensor),
             Some (VOperation (GraphOp "train")))) as Hreturns
    by (do 3 eexists; repeat split; reflexivity).
  split; [exact Hreturns|].
  destruct (@converted_predictions_keep_their_keys framework
              (Some dict_model_fn) None identity (Some (One x_tensor)) None
              INFER named_predictions (Some (VTensor loss_tensor))
              (Some (VOperation (GraphOp "train")))
              (Some (Dict {[ "classes" := classes_tensor;
                             "probabilities" := probabilities_tensor ]}))
              (Some loss_tensor) (Some (GraphOp "train")) Hreturns eq_refl)
    as (d' & Hd' & Hkeys).
  exists d'. split; [|exact Hkeys].
  injection Hd' as <-. reflexivity.
Defined.

Lemma Estimator_wants_a_params_argument_witness :
  _get_arguments (model_fn_callable params_only_model_fn)
  = Some ["features"; "targets"; "params"]
  ∧ ∃ self,
      @Estimator framework (Some params_only_model_fn) "/m" (config None)
        (Some {[ "learning_rate" := 1%Z ]}) None = inr self.
Proof.
  split; [reflexivity|].
  apply (proj1
    (@Estimator_wants_a_params_argument framework params_only_model_fn
       ["features"; "targets"; "params"] "/m" (config None)
       (Some {[ "learning_rate" := 1%Z ]}) None eq_refl)).
  right. apply (bool_decide_unpack _). vm_compute. exact I.
Defined.

Lemma metric_specs_are_stored_under_their_names_witness :
  Forall (λ nm : MetricName * Metric, ∃ create, nm.2 = MetricSpec create)
    [(NameStr "accuracy", accuracy_spec)]
  ∧ NoDup [(NameStr "accuracy", accuracy_spec)].*1
  ∧ _make_metrics_ops (Some [(NameStr "accuracy", accuracy_spec)])
      (Some (One x_tensor)) None (Some (One prediction_tensor))
    = inr {[ NameStr "accuracy" := accuracy ]}
  ∧ ∃ ops,
      inr accuracy = inr (A := exn) ops
      ∧ ({[ NameStr "accuracy" := accuracy ]} : gmap MetricName MetricOps)
          !! NameStr "accuracy" = Some ops.
Proof.
  assert (Forall (λ nm : MetricName * Metric,
                    ∃ create, nm.2 = MetricSpec create)
            [(NameStr "accuracy", accuracy_spec)]) as Hspecs
    by (repeat constructor; eexists; reflexivity).
  assert (NoDup [(NameStr "accuracy", accuracy_spec)].*1) as Hnames
    by (apply NoDup_singleton).
  split; [exact Hspecs|]. split; [exact Hnames|]. split; [reflexivity|].
  apply (proj1
    (metric_specs_are_stored_under_their_names
       [(NameStr "accuracy", accuracy_spec)] (Some (One x_tensor)) None
       (Some (One prediction_tensor)) {[ NameStr "accuracy" := accuracy ]}
       Hspecs Hnames eq_refl)
    (NameStr "accuracy") (λ _ _ _, inr accuracy)).
  constructor.
Defined.
End ConcreteModelFunctionRuns.

Section ConcreteInferenceRuns.
Import Example.

Lemma evaluate_reports_the_global_step_witness :
  evaluation_enabled (_config (estimator None))
  ∧ checkpoints fitted !! _model_dir (estimator None) = Some "/m/model.ckpt"
  ∧ "/m/model.ckpt" ≠ ""
  ∧ metrics_is_None_or_dict None
  ∧ @_check_inputs framework (Some (One x_tensor)) None
      (inference_start "/m" fitted)
    = (inr tt, inference_start "/m" fitted)
  ∧ _get_eval_ops (estimator None) (Some (One x_tensor)) None None
      (inference_start "/m" fitted)
    = (inr {[ NameStr "loss" := @streaming_mean framework (Some loss_tensor);
              NameStr "predictions" :=
                @streaming_mean framework (Some prediction_tensor) ]},
       inference_start "/m" fitted)
  ∧ @evaluate framework (estimator None) None None
      (Some (input_fn x_tensor)) None None None None None fitted
    = (inr (Some {[ NameStr "global_step" := 0%Z ]}),
       inference_start "/m" fitted).
Proof.
  assert ("/m/model.ckpt" ≠ "") as Hpath by discriminate.
  split; [exact I|]. split; [reflexivity|]. split; [exact Hpath|].
  split; [exact I|]. split; [reflexivity|]. split; [reflexivity|].
  exact (@evaluate_reports_the_global_step framework (estimator None)
           None None (Some (input_fn x_tensor)) None None None None None
           (input_fn x_tensor, None) (Some (One x_tensor)) None
           "/m/model.ckpt"
           {[ NameStr "loss" := @streaming_mean framework (Some loss_tensor);
              NameStr "predictions" :=
                @streaming_mean framework (Some prediction_tensor) ]}
           (Some ∅) 0%Z fitted (inference_start "/m" fitted)
           (inference_start "/m" fitted)
           I eq_refl Hpath I eq_refl eq_refl eq_refl eq_refl eq_refl).
Defined.

Lemma predict_runs_the_named_outputs_witness :
  checkpoints fitted !! _model_dir dict_estimator = Some "/m/model.ckpt"
  ∧ "/m/model.ckpt" ≠ ""
  ∧ ["classes"] ≠ []
  ∧ _get_predict_ops dict_estimator (Some (One x_tensor))
      (inference_start "/m" fitted)
    = (inr (Some (Dict {[ "classes" := classes_tensor;
                          "probabilities" := probabilities_tensor ]})),
       inference_start "/m" fitted)
  ∧ @_infer_model framework dict_estimator (input_fn x_tensor) None
      (Some ["classes"]) true fitted
    = (inr (PredictIterable
              {| gen_checkpoint_path := "/m/model.ckpt";
                 gen_predictions :=
                   filter (λ kv : string * option Tensor, kv.1 ∈ ["classes"])
                     (Some <$> ({[ "classes" := classes_tensor;
                                   "probabilities" := probabilities_tensor ]}
                                : gmap string Tensor));
                 gen_feed_fn := None; gen_return_dict := true |}),
       inference_start "/m" fitted).
Proof.
  assert ("/m/model.ckpt" ≠ "") as Hpath by discriminate.
  assert (["classes"] ≠ @nil string) as Houts by discriminate.
  split; [reflexivity|]. split; [exact Hpath|]. split; [exact Houts|].
  split; [reflexivity|].
  apply (proj1 (proj2 (proj2
    (@predict_runs_the_named_outputs framework dict_estimator
       (input_fn x_tensor) None ["classes"] "/m/model.ckpt"
       (Some (One x_tensor))
       {[ "classes" := classes_tensor;
          "probabilities" := probabilities_tensor ]}
       fitted (inference_start "/m" fitted)
       eq_refl Hpath eq_refl eq_refl Houts)))).
  exists "classes". split.
  - apply (bool_decide_unpack _). vm_compute. exact I.
  - exists classes_tensor. reflexivity.
Defined.

Lemma dict_batches_are_unpacked_row_by_row_witness :
  map_Forall (λ _ (value : ndarray), length value = 2)
    ({[ "predictions" := [[1%Z]; [2%Z]] ]} : gmap string ndarray)
  ∧ ∃ items,
      unpack_batch true {[ "predictions" := [[1%Z]; [2%Z]] ]}
      = (items, None)
      ∧ length items = 2.
Proof.
  assert (map_Forall (λ _ (value : ndarray), length value = 2)
            ({[ "predictions" := [[1%Z]; [2%Z]] ]} : gmap string ndarray))
    as Hrows by (apply map_Forall_singleton; reflexivity).
  split; [exact Hrows|].
  destruct (proj1
    (dict_batches_are_unpacked_row_by_row
       {[ "predictions" := [[1%Z]; [2%Z]] ]} 2 Hrows))
    as (items & Hitems & Hlen & _).
  - apply map_non_empty_singleton.
  - exists items. split; [exact Hitems | exact Hlen].
Defined.

Lemma other_errors_leave_the_generator_witness :
  (∀ j b,
     [({[ "predictions" := [[1%Z]; [2%Z]] ]} : gmap string ndarray)] !! j
     = Some b →
     @run_feeds_iter framework outputs (feed_dicts (Some failing_feed))
       "/m/model.ckpt" (0 + j) = Yield b)
  ∧ @run_feeds_iter framework outputs (feed_dicts (Some failing_feed))
      "/m/model.ckpt" 1 = Raise (OtherError "feed failed")
  ∧ @_infer_model_as_iterable framework 3 "/m/model.ckpt" outputs
      (Some failing_feed) false 0
    = ([PredictionRow [1%Z]; PredictionRow [2%Z]],
       Raised (OtherError "feed failed")).
Proof.
  assert (∀ j b,
            [({[ "predictions" := [[1%Z]; [2%Z]] ]} : gmap string ndarray)]
              !! j = Some b →
            @run_feeds_iter framework outputs (feed_dicts (Some failing_feed))
              "/m/model.ckpt" (0 + j) = Yield b) as Hengine.
  { intros [|j] b Hb; [|discriminate Hb]. injection Hb as <-. reflexivity. }
  assert (Forall (λ b, (unpack_batch false b).2 = None)
            [({[ "predictions" := [[1%Z]; [2%Z]] ]} : gmap string ndarray)])
    as Hok by (repeat constructor).
  split; [exact Hengine|]. split; [reflexivity|].
  apply (proj1
    (@other_errors_leave_the_generator framework "/m/model.ckpt" outputs
       (Some failing_feed) false
       [({[ "predictions" := [[1%Z]; [2%Z]] ]} : gmap string ndarray)]
       3 0 (OtherError "feed failed") Hengine Hok (le_S 2 2 (le_n 2)))).
  - reflexivity.
  - discriminate.
Defined.

Lemma eager_and_lazy_prediction_agree_witness :
  @graph_actions_run_feeds consistent_framework outputs steady_feed
    "/m/model.ckpt" = inr batches
  ∧ @input_exhausted_at consistent_framework "/m/model.ckpt" outputs
      (Some steady_feed) (length batches)
  ∧ ∃ a,
      @_infer_model_single consistent_framework "/m/model.ckpt" outputs
        (Some steady_feed) false = inr (PredictArray a)
      ∧ @_infer_model_as_iterable consistent_framework 3 "/m/model.ckpt"
          outputs (Some steady_feed) false 0
        = (PredictionRow <$> a, Returned)
      ∧ a = [[1%Z]; [2%Z]; [3%Z]].
Proof.
  assert (@input_exhausted_at consistent_framework "/m/model.ckpt" outputs
            (Some steady_feed) (length batches)) as Hend.
  { right. right. exists (Some ∅). split; reflexivity. }
  assert (∀ j b, batches !! j = Some b →
            @run_feeds_iter consistent_framework outputs
              (feed_dicts (Some steady_feed)) "/m/model.ckpt" j = Yield b)
    as Hengine.
  { intros [|[|j]] b Hb; [| |discriminate Hb];
      injection Hb as <-; reflexivity. }
  assert (Forall (λ b : gmap string ndarray, is_Some (b !! "predictions"))
            batches) as Hkeys.
  { repeat constructor; eexists; reflexivity. }
  assert (batches ≠ []) as Hsome by discriminate.
  split; [reflexivity|]. split; [exact Hend|].
  destruct (@eager_and_lazy_prediction_agree consistent_framework
              "/m/model.ckpt" outputs (Some steady_feed) false
              (Some prediction_tensor) steady_feed batches 3
              eq_refl eq_refl eq_refl eq_refl Hsome Hengine Hend Hkeys
              (le_n 3))
    as (a & Heager & Hlazy & Ha).
  exists a. split; [exact Heager|]. split; [exact Hlazy|].
  rewrite Ha. reflexivity.
Defined.
End ConcreteInferenceRuns.
